(** * terraform-provider-rgw: resource handlers of the RGW provider

A shallow embedding of the four resources of [internal/provider]
(user quota, generic quota, bucket quota, bucket link) and of the parts of
the plugin framework and of the admin client they touch.

- Go's [int64] and [int] are [Z] with the 64-bit wrap-around written out.
- [types.String], [types.Bool], [types.Int64] are three-state values
  (null, unknown, known).
- A handler receives the request and the response the framework prepared,
  and delivers the response it leaves behind.
- The admin client is an oracle ([Remote]); every call a handler makes is
  appended to a trace, so that the calls themselves can be specified. *)

From Stdlib Require Import ZArith String List Bool Lia.
Import ListNotations.

Local Open Scope string_scope.
Local Open Scope list_scope.
Local Open Scope Z_scope.

(* ===================================================================== *)
(** ** Go integers *)

Module GoInt.

(** Two's-complement reduction of an integer to 64 bits. *)
Definition wrap64 (x : Z) : Z := (x + 2 ^ 63) mod 2 ^ 64 - 2 ^ 63.

Definition in_int64 (x : Z) : Prop := - 2 ^ 63 <= x < 2 ^ 63.

(** [a * b] on [int64]. *)
Definition int64_mul (a b : Z) : Z := wrap64 (a * b).

(** The conversions [int(x)] and [int64(x)]; [int] is taken at its 64-bit
    width. *)
Definition int_of_int64 (x : Z) : Z := wrap64 x.
Definition int64_of_int (x : Z) : Z := wrap64 x.

End GoInt.

(* ===================================================================== *)
(** ** Errors: the [error] interface, [errors.Is] and the admin sentinels *)

Inductive error : Type :=
| ErrNoSuchUser
| ErrNoSuchBucket
| ErrReason (code : string)
| ErrWrap (msg : string) (cause : error).

Module errors.

Definition same_sentinel (e target : error) : bool :=
  match e, target with
  | ErrNoSuchUser, ErrNoSuchUser => true
  | ErrNoSuchBucket, ErrNoSuchBucket => true
  | ErrReason a, ErrReason b => String.eqb a b
  | _, _ => false
  end.

(** [errors.Is(err, target)]: [target] is found along the chain of causes. *)
Fixpoint Is (err target : error) : bool :=
  same_sentinel err target
  || match err with
     | ErrWrap _ cause => Is cause target
     | _ => false
     end.

(** [err.Error()]. *)
Definition Error (err : error) : string :=
  match err with
  | ErrNoSuchUser => "NoSuchUser"
  | ErrNoSuchBucket => "NoSuchBucket"
  | ErrReason code => code
  | ErrWrap msg _ => msg
  end.

End errors.

(* ===================================================================== *)
(** ** Framework values: [types.String], [types.Bool], [types.Int64] *)

Module types.

Inductive Value (A : Type) : Type :=
| Null
| Unknown
| Known (a : A).
Arguments Null {A}.
Arguments Unknown {A}.
Arguments Known {A} a.

Definition String := Value string.
Definition Bool := Value bool.
Definition Int64 := Value Z.

Definition IsNull {A} (v : Value A) : bool :=
  match v with Null => true | _ => false end.

Definition ValueOr {A} (d : A) (v : Value A) : A :=
  match v with Known a => a | _ => d end.

Definition ValueString (v : String) : string := ValueOr EmptyString v.
Definition ValueBool (v : Bool) : bool := ValueOr false v.
Definition ValueInt64 (v : Int64) : Z := ValueOr 0 v.

Definition StringValue (s : string) : String := Known s.
Definition BoolValue (b : bool) : Bool := Known b.
Definition Int64Value (n : Z) : Int64 := Known n.

End types.

(* ===================================================================== *)
(** ** Diagnostics *)

Module diag.

Inductive Severity : Type := SeverityError | SeverityWarning.

Record Diagnostic : Type := mkDiagnostic {
  severity : Severity;
  Summary : string;
  Detail : string
}.

Definition Diagnostics : Type := list Diagnostic.

Definition NewErrorDiagnostic (summary detail : string) : Diagnostic :=
  mkDiagnostic SeverityError summary detail.

Definition is_error (d : Diagnostic) : bool :=
  match severity d with SeverityError => true | SeverityWarning => false end.

Definition severity_eqb (a b : Severity) : bool :=
  match a, b with
  | SeverityError, SeverityError => true
  | SeverityWarning, SeverityWarning => true
  | _, _ => false
  end.

Definition Equal (a b : Diagnostic) : bool :=
  severity_eqb (severity a) (severity b)
  && String.eqb (Summary a) (Summary b)
  && String.eqb (Detail a) (Detail b).

Definition HasError (ds : Diagnostics) : bool := existsb is_error ds.

Definition Contains (ds : Diagnostics) (d : Diagnostic) : bool :=
  existsb (Equal d) ds.

(** [diags.Append(in...)]: a diagnostic already present is not added again. *)
Fixpoint Append (ds : Diagnostics) (new : Diagnostics) : Diagnostics :=
  match new with
  | [] => ds
  | d :: rest =>
      if Contains ds d then Append ds rest else Append (ds ++ [d]) rest
  end.

Definition AddError (ds : Diagnostics) (summary detail : string) : Diagnostics :=
  Append ds [NewErrorDiagnostic summary detail].

End diag.

(* ===================================================================== *)
(** ** Plan, state, requests and responses of the framework *)

Module tfsdk.

(** A plan or a prior state as a handler reads it: what
    [Get(ctx, &data)] reports and the model it fills in. *)
Record Data (M : Type) : Type := mkData {
  Get_diags : diag.Diagnostics;
  Get_data : M
}.
Arguments mkData {M}.
Arguments Get_diags {M}.
Arguments Get_data {M}.

End tfsdk.

Module resource.

Record CreateRequest (M : Type) : Type := { CreateRequest_Plan : tfsdk.Data M }.
Record ReadRequest (M : Type) : Type := { ReadRequest_State : tfsdk.Data M }.
Record UpdateRequest (M : Type) : Type := { UpdateRequest_Plan : tfsdk.Data M }.
Record DeleteRequest (M : Type) : Type := { DeleteRequest_State : tfsdk.Data M }.
Arguments CreateRequest_Plan {M}.
Arguments ReadRequest_State {M}.
Arguments UpdateRequest_Plan {M}.
Arguments DeleteRequest_State {M}.

(** The response of every handler: the state of the resource ([None] once
    it is removed or when there is none yet) and the diagnostics. *)
Record Response (M : Type) : Type := mkResponse {
  State : option M;
  Diagnostics : diag.Diagnostics
}.
Arguments mkResponse {M}.
Arguments State {M}.
Arguments Diagnostics {M}.

Definition CreateResponse := Response.
Definition ReadResponse := Response.
Definition UpdateResponse := Response.
Definition DeleteResponse := Response.

Section Response.
  Context {M : Type}.

(** [resp.Diagnostics.Append(ds...)] *)
Definition Diagnostics_Append (resp : Response M) (ds : diag.Diagnostics) : Response M :=
  mkResponse (State resp) (diag.Append (Diagnostics resp) ds).

(** [resp.Diagnostics.AddError(summary, detail)] *)
Definition Diagnostics_AddError (resp : Response M) (summary detail : string) : Response M :=
  mkResponse (State resp) (diag.AddError (Diagnostics resp) summary detail).

(** [resp.State.Set(ctx, &data)]: the model has the shape of the schema,
    the write reports nothing. *)
Definition State_Set (resp : Response M) (data : M) : Response M * diag.Diagnostics :=
  (mkResponse (Some data) (Diagnostics resp), []).

(** [resp.State.RemoveResource(ctx)] *)
Definition State_RemoveResource (resp : Response M) : Response M :=
  mkResponse None (Diagnostics resp).

(** [resp.Diagnostics.Append(resp.State.Set(ctx, &data)...)] *)
Definition Save (resp : Response M) (data : M) : Response M :=
  let '(resp', ds) := State_Set resp data in
  Diagnostics_Append resp' ds.

End Response.

End resource.

(* ===================================================================== *)
(** ** The admin client: request types, the remote side, the call trace *)

Module admin.

Record QuotaSpec : Type := mkQuotaSpec {
  UID : string;
  Bucket : string;
  QuotaType : string;
  Enabled : option bool;
  CheckOnRaw : bool;
  MaxSize : option Z;
  MaxSizeKb : option Z;
  MaxObjects : option Z
}.

(** The zero value of the struct. *)
Definition QuotaSpec_zero : QuotaSpec :=
  mkQuotaSpec "" "" "" None false None None None.

Definition set_Enabled (q : QuotaSpec) (v : option bool) : QuotaSpec :=
  mkQuotaSpec (UID q) (Bucket q) (QuotaType q) v (CheckOnRaw q)
              (MaxSize q) (MaxSizeKb q) (MaxObjects q).
Definition set_MaxSize (q : QuotaSpec) (v : option Z) : QuotaSpec :=
  mkQuotaSpec (UID q) (Bucket q) (QuotaType q) (Enabled q) (CheckOnRaw q)
              v (MaxSizeKb q) (MaxObjects q).
Definition set_MaxSizeKb (q : QuotaSpec) (v : option Z) : QuotaSpec :=
  mkQuotaSpec (UID q) (Bucket q) (QuotaType q) (Enabled q) (CheckOnRaw q)
              (MaxSize q) v (MaxObjects q).
Definition set_MaxObjects (q : QuotaSpec) (v : option Z) : QuotaSpec :=
  mkQuotaSpec (UID q) (Bucket q) (QuotaType q) (Enabled q) (CheckOnRaw q)
              (MaxSize q) (MaxSizeKb q) v.

(** [admin.Bucket], with the two fields the provider uses. *)
Record BucketInfo : Type := mkBucket {
  Bucket_Bucket : string;
  BucketQuota : QuotaSpec
}.

Record BucketLinkInput : Type := mkBucketLinkInput {
  Link_Bucket : string;
  Link_UID : string
}.

(** One request sent to the admin API. *)
Inductive Call : Type :=
| CallSetUserQuota (q : QuotaSpec)
| CallSetBucketQuota (q : QuotaSpec)
| CallSetIndividualBucketQuota (q : QuotaSpec)
| CallGetUserQuota (q : QuotaSpec)
| CallGetBucketQuota (q : QuotaSpec)
| CallGetBucketInfo (b : BucketInfo)
| CallListUsersBuckets (uid : string)
| CallLinkBucket (l : BucketLinkInput)
| CallUnlinkBucket (l : BucketLinkInput).

(** The remote gateway: what it answers to each request. An [option error]
    is Go's [error], [None] being [nil]. *)
Record Remote : Type := mkRemote {
  onSetUserQuota : QuotaSpec -> option error;
  onSetBucketQuota : QuotaSpec -> option error;
  onSetIndividualBucketQuota : QuotaSpec -> option error;
  onGetUserQuota : QuotaSpec -> QuotaSpec * option error;
  onGetBucketQuota : QuotaSpec -> QuotaSpec * option error;
  onGetBucketInfo : BucketInfo -> BucketInfo * option error;
  onListUsersBuckets : string -> list string * option error;
  onLinkBucket : BucketLinkInput -> option error;
  onUnlinkBucket : BucketLinkInput -> option error
}.

End admin.

(** A handler's computation: it reads the remote side and extends the trace of
    the calls made so far. *)
Definition Rgw (A : Type) : Type := admin.Remote -> list admin.Call -> A * list admin.Call.

Definition ret {A} (a : A) : Rgw A := fun _ tr => (a, tr).

Definition bind {A B} (m : Rgw A) (k : A -> Rgw B) : Rgw B :=
  fun remote tr => let '(a, tr') := m remote tr in k a remote tr'.

Declare Scope rgw_scope.
Delimit Scope rgw_scope with rgw.
Notation "x <- c ;; k" := (bind c (fun x => k))
  (at level 61, c at next level, right associativity) : rgw_scope.
Notation "' pat <- c ;; k" := (bind c (fun x => match x with pat => k end))
  (at level 61, pat pattern, c at next level, right associativity) : rgw_scope.
Local Open Scope rgw_scope.

(** Send one request: record it, deliver the remote side's answer. *)
Definition send {A} (c : admin.Call) (answer : admin.Remote -> A) : Rgw A :=
  fun remote tr => (answer remote, tr ++ [c]).

(** Run a handler against a remote side, from an empty trace. *)
Definition run {A} (m : Rgw A) (remote : admin.Remote) : A * list admin.Call :=
  m remote [].

Definition result {A} (m : Rgw A) (remote : admin.Remote) : A := fst (run m remote).
Definition calls {A} (m : Rgw A) (remote : admin.Remote) : list admin.Call := snd (run m remote).

(** The methods of [r.client.Admin]. *)
Module Admin.
  Import admin.

Definition SetUserQuota (q : QuotaSpec) : Rgw (option error) :=
  send (CallSetUserQuota q) (fun r => onSetUserQuota r q).
Definition SetBucketQuota (q : QuotaSpec) : Rgw (option error) :=
  send (CallSetBucketQuota q) (fun r => onSetBucketQuota r q).
Definition SetIndividualBucketQuota (q : QuotaSpec) : Rgw (option error) :=
  send (CallSetIndividualBucketQuota q) (fun r => onSetIndividualBucketQuota r q).
Definition GetUserQuota (q : QuotaSpec) : Rgw (QuotaSpec * option error) :=
  send (CallGetUserQuota q) (fun r => onGetUserQuota r q).
Definition GetBucketQuota (q : QuotaSpec) : Rgw (QuotaSpec * option error) :=
  send (CallGetBucketQuota q) (fun r => onGetBucketQuota r q).
Definition GetBucketInfo (b : BucketInfo) : Rgw (BucketInfo * option error) :=
  send (CallGetBucketInfo b) (fun r => onGetBucketInfo r b).
Definition ListUsersBuckets (uid : string) : Rgw (list string * option error) :=
  send (CallListUsersBuckets uid) (fun r => onListUsersBuckets r uid).
Definition LinkBucket (l : BucketLinkInput) : Rgw (option error) :=
  send (CallLinkBucket l) (fun r => onLinkBucket r l).
Definition UnlinkBucket (l : BucketLinkInput) : Rgw (option error) :=
  send (CallUnlinkBucket l) (fun r => onUnlinkBucket r l).

End Admin.

(* ===================================================================== *)
(** ** user_quota.go: the user quota resource *)

Module UserQuotaResource.
Import resource.

Record UserQuotaResourceModel : Type := mkModel {
  UID : types.String;
  Enabled : types.Bool;
  CheckOnRaw : types.Bool;
  MaxSize : types.Int64;
  MaxSizeKB : types.Int64;
  MaxObjects : types.Int64
}.

Definition set_Enabled (d : UserQuotaResourceModel) (v : types.Bool) :=
  mkModel (UID d) v (CheckOnRaw d) (MaxSize d) (MaxSizeKB d) (MaxObjects d).
Definition set_CheckOnRaw (d : UserQuotaResourceModel) (v : types.Bool) :=
  mkModel (UID d) (Enabled d) v (MaxSize d) (MaxSizeKB d) (MaxObjects d).
Definition set_MaxSize (d : UserQuotaResourceModel) (v : types.Int64) :=
  mkModel (UID d) (Enabled d) (CheckOnRaw d) v (MaxSizeKB d) (MaxObjects d).
Definition set_MaxSizeKB (d : UserQuotaResourceModel) (v : types.Int64) :=
  mkModel (UID d) (Enabled d) (CheckOnRaw d) (MaxSize d) v (MaxObjects d).
Definition set_MaxObjects (d : UserQuotaResourceModel) (v : types.Int64) :=
  mkModel (UID d) (Enabled d) (CheckOnRaw d) (MaxSize d) (MaxSizeKB d) v.

Definition rgwQuotaFromSchemaQuota (data : UserQuotaResourceModel) : admin.QuotaSpec :=
  let enabled := types.ValueBool (Enabled data) in
  let quota :=
    admin.mkQuotaSpec (types.ValueString (UID data)) "" "user" (Some enabled)
                      (types.ValueBool (CheckOnRaw data)) None None None in
  let quota :=
    if negb (types.IsNull (MaxSize data))
    then admin.set_MaxSize quota (Some (types.ValueInt64 (MaxSize data)))
    else quota in
  let quota :=
    if negb (types.IsNull (MaxSizeKB data))
    then admin.set_MaxSizeKb quota
           (Some (GoInt.int_of_int64 (types.ValueInt64 (MaxSizeKB data))))
    else quota in
  let quota :=
    if negb (types.IsNull (MaxObjects data))
    then admin.set_MaxObjects quota (Some (types.ValueInt64 (MaxObjects data)))
    else quota in
  quota.

Definition Create (req : CreateRequest UserQuotaResourceModel)
    (resp : CreateResponse UserQuotaResourceModel)
  : Rgw (CreateResponse UserQuotaResourceModel) :=
  let data := tfsdk.Get_data (CreateRequest_Plan req) in
  let resp := Diagnostics_Append resp (tfsdk.Get_diags (CreateRequest_Plan req)) in
  if diag.HasError (Diagnostics resp) then ret resp else
  let quota := rgwQuotaFromSchemaQuota data in
  err <- Admin.SetUserQuota quota ;;
  match err with
  | Some e =>
      ret (Diagnostics_AddError resp "could not create user quota" (errors.Error e))
  | None => ret (Save resp data)
  end.

Definition wrong_user_detail (expected got : string) : string :=
  ("expected user '" ++ expected ++ "', got '" ++ got ++ "'")%string.

Definition Read (req : ReadRequest UserQuotaResourceModel)
    (resp : ReadResponse UserQuotaResourceModel)
  : Rgw (ReadResponse UserQuotaResourceModel) :=
  let data := tfsdk.Get_data (ReadRequest_State req) in
  let resp := Diagnostics_Append resp (tfsdk.Get_diags (ReadRequest_State req)) in
  if diag.HasError (Diagnostics resp) then ret resp else
  let reqQuotaSpec :=
    admin.mkQuotaSpec (types.ValueString (UID data)) "" "" None false None None None in
  '(quotaSpec, err) <- Admin.GetUserQuota reqQuotaSpec ;;
  match err with
  | Some e =>
      if errors.Is e ErrNoSuchUser
      then ret (State_RemoveResource resp)
      else ret (Diagnostics_AddError resp "could not get user quota" (errors.Error e))
  | None =>
      if negb (String.eqb (types.ValueString (UID data)) (admin.UID quotaSpec))
      then ret (Diagnostics_AddError resp "api returned wrong user"
                  (wrong_user_detail (types.ValueString (UID data)) (admin.UID quotaSpec)))
      else
        let data :=
          match admin.Enabled quotaSpec with
          | Some b => set_Enabled data (types.BoolValue b)
          | None => data
          end in
        let data := set_CheckOnRaw data (types.BoolValue (admin.CheckOnRaw quotaSpec)) in
        let data :=
          match admin.MaxSize quotaSpec with
          | Some n => set_MaxSize data (types.Int64Value n)
          | None => data
          end in
        let data :=
          match admin.MaxSizeKb quotaSpec with
          | Some n => set_MaxSizeKB data (types.Int64Value (GoInt.int64_of_int n))
          | None => data
          end in
        let data :=
          match admin.MaxObjects quotaSpec with
          | Some n => set_MaxObjects data (types.Int64Value n)
          | None => data
          end in
        ret (Save resp data)
  end.

Definition Update (req : UpdateRequest UserQuotaResourceModel)
    (resp : UpdateResponse UserQuotaResourceModel)
  : Rgw (UpdateResponse UserQuotaResourceModel) :=
  let data := tfsdk.Get_data (UpdateRequest_Plan req) in
  let resp := Diagnostics_Append resp (tfsdk.Get_diags (UpdateRequest_Plan req)) in
  if diag.HasError (Diagnostics resp) then ret resp else
  let quota := rgwQuotaFromSchemaQuota data in
  err <- Admin.SetUserQuota quota ;;
  match err with
  | Some e =>
      ret (Diagnostics_AddError resp "could not modify user quota" (errors.Error e))
  | None => ret (Save resp data)
  end.

Definition Delete (req : DeleteRequest UserQuotaResourceModel)
    (resp : DeleteResponse UserQuotaResourceModel)
  : Rgw (DeleteResponse UserQuotaResourceModel) :=
  let data := tfsdk.Get_data (DeleteRequest_State req) in
  let resp := Diagnostics_Append resp (tfsdk.Get_diags (DeleteRequest_State req)) in
  if diag.HasError (Diagnostics resp) then ret resp else
  let quota := rgwQuotaFromSchemaQuota data in
  let f := false in
  let quota := admin.set_Enabled quota (Some f) in
  err <- Admin.SetUserQuota quota ;;
  match err with
  | Some e =>
      ret (Diagnostics_AddError resp "could not modify user quota" (errors.Error e))
  | None =>
      match err with
      | Some e =>
          if negb (errors.Is e ErrNoSuchUser)
          then ret (Diagnostics_AddError resp "could not delete user quota" (errors.Error e))
          else ret resp
      | None => ret resp
      end
  end.

End UserQuotaResource.

(* ===================================================================== *)
(** ** The generic quota resource ([QuotaResource], type user or bucket) *)

Module QuotaResource.
Import resource.

Record QuotaResourceModel : Type := mkModel {
  UID : types.String;
  Type_ : types.String;
  Enabled : types.Bool;
  CheckOnRaw : types.Bool;
  MaxSize : types.Int64;
  MaxSizeKB : types.Int64;
  MaxObjects : types.Int64
}.

Definition set_Enabled (d : QuotaResourceModel) (v : types.Bool) :=
  mkModel (UID d) (Type_ d) v (CheckOnRaw d) (MaxSize d) (MaxSizeKB d) (MaxObjects d).
Definition set_CheckOnRaw (d : QuotaResourceModel) (v : types.Bool) :=
  mkModel (UID d) (Type_ d) (Enabled d) v (MaxSize d) (MaxSizeKB d) (MaxObjects d).
Definition set_MaxSize (d : QuotaResourceModel) (v : types.Int64) :=
  mkModel (UID d) (Type_ d) (Enabled d) (CheckOnRaw d) v (MaxSizeKB d) (MaxObjects d).
Definition set_MaxSizeKB (d : QuotaResourceModel) (v : types.Int64) :=
  mkModel (UID d) (Type_ d) (Enabled d) (CheckOnRaw d) (MaxSize d) v (MaxObjects d).
Definition set_MaxObjects (d : QuotaResourceModel) (v : types.Int64) :=
  mkModel (UID d) (Type_ d) (Enabled d) (CheckOnRaw d) (MaxSize d) (MaxSizeKB d) v.

Definition rgwQuotaFromSchemaQuota (data : QuotaResourceModel) : admin.QuotaSpec :=
  let enabled := types.ValueBool (Enabled data) in
  let quota :=
    admin.mkQuotaSpec (types.ValueString (UID data)) "" (types.ValueString (Type_ data))
                      (Some enabled) (types.ValueBool (CheckOnRaw data)) None None None in
  (* treat 0 as max_size quote disabled *)
  let quota :=
    if negb (types.IsNull (MaxSizeKB data))
       && negb (types.ValueInt64 (MaxSizeKB data) =? 0)
    then admin.set_MaxSizeKb quota
           (Some (GoInt.int_of_int64 (types.ValueInt64 (MaxSizeKB data))))
    else admin.set_MaxSize quota (Some (-1)) in
  let quota :=
    if negb (types.IsNull (MaxObjects data))
    then admin.set_MaxObjects quota (Some (types.ValueInt64 (MaxObjects data)))
    else quota in
  quota.

Definition Create (req : CreateRequest QuotaResourceModel)
    (resp : CreateResponse QuotaResourceModel)
  : Rgw (CreateResponse QuotaResourceModel) :=
  let data := tfsdk.Get_data (CreateRequest_Plan req) in
  let resp := Diagnostics_Append resp (tfsdk.Get_diags (CreateRequest_Plan req)) in
  if diag.HasError (Diagnostics resp) then ret resp else
  let quota := rgwQuotaFromSchemaQuota data in
  err <-
    (if String.eqb (types.ValueString (Type_ data)) "user"
     then Admin.SetUserQuota quota
     else Admin.SetBucketQuota quota) ;;
  match err with
  | Some e =>
      ret (Diagnostics_AddError resp "could not create user quota" (errors.Error e))
  | None =>
      let data :=
        if negb (types.ValueInt64 (MaxSizeKB data) =? 0)
        then set_MaxSize data
               (types.Int64Value (GoInt.int64_mul (types.ValueInt64 (MaxSizeKB data)) 1024))
        else set_MaxSize data (types.Int64Value (-1)) in
      ret (Save resp data)
  end.

Definition Read (req : ReadRequest QuotaResourceModel)
    (resp : ReadResponse QuotaResourceModel)
  : Rgw (ReadResponse QuotaResourceModel) :=
  let data := tfsdk.Get_data (ReadRequest_State req) in
  let resp := Diagnostics_Append resp (tfsdk.Get_diags (ReadRequest_State req)) in
  if diag.HasError (Diagnostics resp) then ret resp else
  let reqQuotaSpec :=
    admin.mkQuotaSpec (types.ValueString (UID data)) "" "" None false None None None in
  '(quotaSpec, err) <-
     (if String.eqb (types.ValueString (Type_ data)) "user"
      then Admin.GetUserQuota reqQuotaSpec
      else Admin.GetBucketQuota reqQuotaSpec) ;;
  match err with
  | Some e =>
      if errors.Is e ErrNoSuchUser
      then ret (State_RemoveResource resp)
      else ret (Diagnostics_AddError resp "could not get user quota" (errors.Error e))
  | None =>
      let data :=
        match admin.Enabled quotaSpec with
        | Some b => set_Enabled data (types.BoolValue b)
        | None => data
        end in
      let data := set_CheckOnRaw data (types.BoolValue (admin.CheckOnRaw quotaSpec)) in
      let data :=
        match admin.MaxSize quotaSpec with
        | Some n => set_MaxSize data (types.Int64Value n)
        | None => data
        end in
      let data :=
        match admin.MaxSizeKb quotaSpec with
        | Some n => set_MaxSizeKB data (types.Int64Value (GoInt.int64_of_int n))
        | None => data
        end in
      let data :=
        match admin.MaxObjects quotaSpec with
        | Some n => set_MaxObjects data (types.Int64Value n)
        | None => data
        end in
      ret (Save resp data)
  end.

Definition Update (req : UpdateRequest QuotaResourceModel)
    (resp : UpdateResponse QuotaResourceModel)
  : Rgw (UpdateResponse QuotaResourceModel) :=
  let data := tfsdk.Get_data (UpdateRequest_Plan req) in
  let resp := Diagnostics_Append resp (tfsdk.Get_diags (UpdateRequest_Plan req)) in
  if diag.HasError (Diagnostics resp) then ret resp else
  let quota := rgwQuotaFromSchemaQuota data in
  err <-
    (if String.eqb (types.ValueString (Type_ data)) "user"
     then Admin.SetUserQuota quota
     else Admin.SetBucketQuota quota) ;;
  match err with
  | Some e =>
      ret (Diagnostics_AddError resp "could not modify user quota" (errors.Error e))
  | None =>
      let data :=
        if negb (types.ValueInt64 (MaxSizeKB data) =? 0)
        then set_MaxSize data
               (types.Int64Value (GoInt.int64_mul (types.ValueInt64 (MaxSizeKB data)) 1024))
        else set_MaxSize data (types.Int64Value (-1)) in
      ret (Save resp data)
  end.

Definition Delete (req : DeleteRequest QuotaResourceModel)
    (resp : DeleteResponse QuotaResourceModel)
  : Rgw (DeleteResponse QuotaResourceModel) :=
  let data := tfsdk.Get_data (DeleteRequest_State req) in
  let resp := Diagnostics_Append resp (tfsdk.Get_diags (DeleteRequest_State req)) in
  if diag.HasError (Diagnostics resp) then ret resp else
  let quota := rgwQuotaFromSchemaQuota data in
  let f := false in
  let quota := admin.set_Enabled quota (Some f) in
  let maxSize := -1 in
  let quota := admin.set_MaxSize quota (Some maxSize) in
  let quota := admin.set_MaxSizeKb quota None in
  let maxObjects := -1 in
  let quota := admin.set_MaxObjects quota (Some maxObjects) in
  err <-
    (if String.eqb (types.ValueString (Type_ data)) "user"
     then Admin.SetUserQuota quota
     else Admin.SetBucketQuota quota) ;;
  match err with
  | Some e =>
      ret (Diagnostics_AddError resp "could not modify user quota" (errors.Error e))
  | None =>
      match err with
      | Some e =>
          if negb (errors.Is e ErrNoSuchUser)
          then ret (Diagnostics_AddError resp "could not delete user quota" (errors.Error e))
          else ret resp
      | None => ret resp
      end
  end.

End QuotaResource.

(* ===================================================================== *)
(** ** bucket_quota_resource.go: the individual bucket quota resource *)

Module BucketQuotaResource.
Import resource.

Record BucketQuotaResourceModel : Type := mkModel {
  Bucket : types.String;
  UID : types.String;
  Enabled : types.Bool;
  CheckOnRaw : types.Bool;
  MaxSize : types.Int64;
  MaxSizeKB : types.Int64;
  MaxObjects : types.Int64
}.

Definition set_Enabled (d : BucketQuotaResourceModel) (v : types.Bool) :=
  mkModel (Bucket d) (UID d) v (CheckOnRaw d) (MaxSize d) (MaxSizeKB d) (MaxObjects d).
Definition set_CheckOnRaw (d : BucketQuotaResourceModel) (v : types.Bool) :=
  mkModel (Bucket d) (UID d) (Enabled d) v (MaxSize d) (MaxSizeKB d) (MaxObjects d).
Definition set_MaxSize (d : BucketQuotaResourceModel) (v : types.Int64) :=
  mkModel (Bucket d) (UID d) (Enabled d) (CheckOnRaw d) v (MaxSizeKB d) (MaxObjects d).
Definition set_MaxSizeKB (d : BucketQuotaResourceModel) (v : types.Int64) :=
  mkModel (Bucket d) (UID d) (Enabled d) (CheckOnRaw d) (MaxSize d) v (MaxObjects d).
Definition set_MaxObjects (d : BucketQuotaResourceModel) (v : types.Int64) :=
  mkModel (Bucket d) (UID d) (Enabled d) (CheckOnRaw d) (MaxSize d) (MaxSizeKB d) v.

Definition rgwBucketQuotaFromSchemaQuota (data : BucketQuotaResourceModel) : admin.QuotaSpec :=
  let enabled := types.ValueBool (Enabled data) in
  let quota :=
    admin.mkQuotaSpec (types.ValueString (UID data)) (types.ValueString (Bucket data)) ""
                      (Some enabled) (types.ValueBool (CheckOnRaw data)) None None None in
  (* treat 0 as max_size quote disabled *)
  let quota :=
    if negb (types.IsNull (MaxSizeKB data))
       && negb (types.ValueInt64 (MaxSizeKB data) =? 0)
    then admin.set_MaxSizeKb quota
           (Some (GoInt.int_of_int64 (types.ValueInt64 (MaxSizeKB data))))
    else admin.set_MaxSize quota (Some (-1)) in
  let quota :=
    if negb (types.IsNull (MaxObjects data))
    then admin.set_MaxObjects quota (Some (types.ValueInt64 (MaxObjects data)))
    else quota in
  quota.

Definition Create (req : CreateRequest BucketQuotaResourceModel)
    (resp : CreateResponse BucketQuotaResourceModel)
  : Rgw (CreateResponse BucketQuotaResourceModel) :=
  let data := tfsdk.Get_data (CreateRequest_Plan req) in
  let resp := Diagnostics_Append resp (tfsdk.Get_diags (CreateRequest_Plan req)) in
  if diag.HasError (Diagnostics resp) then ret resp else
  let quota := rgwBucketQuotaFromSchemaQuota data in
  err <- Admin.SetIndividualBucketQuota quota ;;
  match err with
  | Some e =>
      ret (Diagnostics_AddError resp "could not create bucket quota" (errors.Error e))
  | None =>
      let data :=
        if negb (types.ValueInt64 (MaxSizeKB data) =? 0)
        then set_MaxSize data
               (types.Int64Value (GoInt.int64_mul (types.ValueInt64 (MaxSizeKB data)) 1024))
        else set_MaxSize data (types.Int64Value (-1)) in
      ret (Save resp data)
  end.

Definition Read (req : ReadRequest BucketQuotaResourceModel)
    (resp : ReadResponse BucketQuotaResourceModel)
  : Rgw (ReadResponse BucketQuotaResourceModel) :=
  let data := tfsdk.Get_data (ReadRequest_State req) in
  let resp := Diagnostics_Append resp (tfsdk.Get_diags (ReadRequest_State req)) in
  if diag.HasError (Diagnostics resp) then ret resp else
  let reqBucket :=
    admin.mkBucket (types.ValueString (Bucket data)) admin.QuotaSpec_zero in
  '(bucket, err) <- Admin.GetBucketInfo reqBucket ;;
  match err with
  | Some e =>
      if errors.Is e ErrNoSuchBucket
      then ret (State_RemoveResource resp)
      else ret (Diagnostics_AddError resp "could not get bucket quota" (errors.Error e))
  | None =>
      let data :=
        match admin.Enabled (admin.BucketQuota bucket) with
        | Some b => set_Enabled data (types.BoolValue b)
        | None => data
        end in
      let data :=
        set_CheckOnRaw data (types.BoolValue (admin.CheckOnRaw (admin.BucketQuota bucket))) in
      let data :=
        match admin.MaxSize (admin.BucketQuota bucket) with
        | Some n => set_MaxSize data (types.Int64Value n)
        | None => data
        end in
      let data :=
        match admin.MaxSizeKb (admin.BucketQuota bucket) with
        | Some n => set_MaxSizeKB data (types.Int64Value (GoInt.int64_of_int n))
        | None => data
        end in
      let data :=
        match admin.MaxObjects (admin.BucketQuota bucket) with
        | Some n => set_MaxObjects data (types.Int64Value n)
        | None => data
        end in
      ret (Save resp data)
  end.

Definition Update (req : UpdateRequest BucketQuotaResourceModel)
    (resp : UpdateResponse BucketQuotaResourceModel)
  : Rgw (UpdateResponse BucketQuotaResourceModel) :=
  let data := tfsdk.Get_data (UpdateRequest_Plan req) in
  let resp := Diagnostics_Append resp (tfsdk.Get_diags (UpdateRequest_Plan req)) in
  if diag.HasError (Diagnostics resp) then ret resp else
  let quota := rgwBucketQuotaFromSchemaQuota data in
  err <- Admin.SetIndividualBucketQuota quota ;;
  match err with
  | Some e =>
      ret (Diagnostics_AddError resp "could not modify bucket quota" (errors.Error e))
  | None =>
      let data :=
        if negb (types.ValueInt64 (MaxSizeKB data) =? 0)
        then set_MaxSize data
               (types.Int64Value (GoInt.int64_mul (types.ValueInt64 (MaxSizeKB data)) 1024))
        else set_MaxSize data (types.Int64Value (-1)) in
      ret (Save resp data)
  end.

Definition Delete (req : DeleteRequest BucketQuotaResourceModel)
    (resp : DeleteResponse BucketQuotaResourceModel)
  : Rgw (DeleteResponse BucketQuotaResourceModel) :=
  let data := tfsdk.Get_data (DeleteRequest_State req) in
  let resp := Diagnostics_Append resp (tfsdk.Get_diags (DeleteRequest_State req)) in
  if diag.HasError (Diagnostics resp) then ret resp else
  let quota := rgwBucketQuotaFromSchemaQuota data in
  let f := false in
  let quota := admin.set_Enabled quota (Some f) in
  let maxSize := -1 in
  let quota := admin.set_MaxSize quota (Some maxSize) in
  let quota := admin.set_MaxSizeKb quota None in
  let maxObjects := -1 in
  let quota := admin.set_MaxObjects quota (Some maxObjects) in
  err <- Admin.SetIndividualBucketQuota quota ;;
  match err with
  | Some e =>
      ret (Diagnostics_AddError resp "could not modify bucket quota" (errors.Error e))
  | None =>
      match err with
      | Some e =>
          if negb (errors.Is e ErrNoSuchBucket)
          then ret (Diagnostics_AddError resp "could not delete bucket quota" (errors.Error e))
          else ret resp
      | None => ret resp
      end
  end.

End BucketQuotaResource.

(* ===================================================================== *)
(** ** The bucket link resource *)

Module BucketLinkResource.
Import resource.

Record BucketLinkResourceModel : Type := mkModel {
  UID : types.String;
  Bucket : types.String;
  UnlinkToUID : types.String
}.

Definition Create (req : CreateRequest BucketLinkResourceModel)
    (resp : CreateResponse BucketLinkResourceModel)
  : Rgw (CreateResponse BucketLinkResourceModel) :=
  let data := tfsdk.Get_data (CreateRequest_Plan req) in
  let resp := Diagnostics_Append resp (tfsdk.Get_diags (CreateRequest_Plan req)) in
  if diag.HasError (Diagnostics resp) then ret resp else
  let rgwBucketLink :=
    admin.mkBucketLinkInput (types.ValueString (Bucket data)) (types.ValueString (UID data)) in
  err <- Admin.LinkBucket rgwBucketLink ;;
  match err with
  | Some e =>
      ret (Diagnostics_AddError resp "could not create bucket link" (errors.Error e))
  | None => ret (Save resp data)
  end.

Fixpoint findString (slice : list string) (str : string) : bool :=
  match slice with
  | [] => false
  | item :: rest => if String.eqb item str then true else findString rest str
  end.

Definition Read (req : ReadRequest BucketLinkResourceModel)
    (resp : ReadResponse BucketLinkResourceModel)
  : Rgw (ReadResponse BucketLinkResourceModel) :=
  let data := tfsdk.Get_data (ReadRequest_State req) in
  let resp := Diagnostics_Append resp (tfsdk.Get_diags (ReadRequest_State req)) in
  if diag.HasError (Diagnostics resp) then ret resp else
  '(buckets, err) <- Admin.ListUsersBuckets (types.ValueString (UID data)) ;;
  match err with
  | Some e =>
      if errors.Is e ErrNoSuchUser
      then ret (State_RemoveResource resp)
      else ret (Diagnostics_AddError resp "could not get user's buckets" (errors.Error e))
  | None =>
      if negb (findString buckets (types.ValueString (Bucket data)))
      then ret (State_RemoveResource resp)
      else ret (Save resp data)
  end.

Definition Update (req : UpdateRequest BucketLinkResourceModel)
    (resp : UpdateResponse BucketLinkResourceModel)
  : Rgw (UpdateResponse BucketLinkResourceModel) :=
  let data := tfsdk.Get_data (UpdateRequest_Plan req) in
  let resp := Diagnostics_Append resp (tfsdk.Get_diags (UpdateRequest_Plan req)) in
  if diag.HasError (Diagnostics resp) then ret resp else
  ret (Save resp data).

Definition Delete (req : DeleteRequest BucketLinkResourceModel)
    (resp : DeleteResponse BucketLinkResourceModel)
  : Rgw (DeleteResponse BucketLinkResourceModel) :=
  let data := tfsdk.Get_data (DeleteRequest_State req) in
  let resp := Diagnostics_Append resp (tfsdk.Get_diags (DeleteRequest_State req)) in
  if diag.HasError (Diagnostics resp) then ret resp else
  err <-
    (if types.IsNull (UnlinkToUID data)
     then Admin.UnlinkBucket
            (admin.mkBucketLinkInput (types.ValueString (Bucket data))
                                     (types.ValueString (UID data)))
     else Admin.LinkBucket
            (admin.mkBucketLinkInput (types.ValueString (Bucket data))
                                     (types.ValueString (UnlinkToUID data)))) ;;
  match err with
  | Some e =>
      if negb (errors.Is e ErrNoSuchBucket)
      then ret (Diagnostics_AddError resp "could not delete bucket link" (errors.Error e))
      else ret resp
  | None => ret resp
  end.

End BucketLinkResource.

(* ===================================================================== *)
(** ** provider.go: the provider and its configuration *)

Module os.

(** The process environment as [os.Getenv] reads it: the first binding of a
    name, and the empty string for a name that is not set. *)
Definition Environ : Type := list (string * string).

Fixpoint Getenv (env : Environ) (key : string) : string :=
  match env with
  | [] => ""
  | (k, v) :: rest => if String.eqb k key then v else Getenv rest key
  end.

End os.

Module s3.

(** What [s3.New] is given: the static credentials its provider function
    returns, the URL of the endpoint resolver, and the path style flag. *)
Record Client : Type := mkClient {
  AccessKeyID : string;
  SecretAccessKey : string;
  EndpointURL : string;
  UsePathStyle : bool
}.

End s3.

Module RgwProvider.

Record RgwProviderModel : Type := mkModel {
  Endpoint : types.String;
  AccessKey : types.String;
  SecretKey : types.String
}.

Definition set_Endpoint (d : RgwProviderModel) (v : types.String) :=
  mkModel v (AccessKey d) (SecretKey d).
Definition set_AccessKey (d : RgwProviderModel) (v : types.String) :=
  mkModel (Endpoint d) v (SecretKey d).
Definition set_SecretKey (d : RgwProviderModel) (v : types.String) :=
  mkModel (Endpoint d) (AccessKey d) v.

Record MetadataResponse : Type := mkMetadataResponse {
  TypeName : string;
  Version : string
}.

(** [p.Metadata], for a provider of version [version]. *)
Definition Metadata (version : string) (resp : MetadataResponse) : MetadataResponse :=
  mkMetadataResponse "rgw" version.

Section Configure.

(** The admin client of go-ceph: its handle, and [admin.New(endpoint,
    accessKey, secretKey, nil)]. *)
Variable API : Type.
Variable admin_New : string -> string -> string -> API * option error.

Record RgwClient : Type := mkRgwClient {
  Admin : API;
  S3 : s3.Client
}.

Record ConfigureRequest : Type := { Config : tfsdk.Data RgwProviderModel }.

Record ConfigureResponse : Type := mkConfigureResponse {
  Diagnostics : diag.Diagnostics;
  DataSourceData : option RgwClient;
  ResourceData : option RgwClient
}.

Definition Diagnostics_Append (resp : ConfigureResponse) (ds : diag.Diagnostics) :=
  mkConfigureResponse (diag.Append (Diagnostics resp) ds)
                      (DataSourceData resp) (ResourceData resp).

Definition Diagnostics_AddError (resp : ConfigureResponse) (summary detail : string) :=
  mkConfigureResponse (diag.AddError (Diagnostics resp) summary detail)
                      (DataSourceData resp) (ResourceData resp).

Definition Configure (env : os.Environ) (req : ConfigureRequest) (resp : ConfigureResponse)
  : ConfigureResponse :=
  let data := tfsdk.Get_data (Config req) in
  let resp := Diagnostics_Append resp (tfsdk.Get_diags (Config req)) in
  if diag.HasError (Diagnostics resp) then resp else
  let data :=
    if types.IsNull (Endpoint data)
    then set_Endpoint data (types.StringValue (os.Getenv env "TF_PROVIDER_RGW_ENDPOINT"))
    else data in
  let data :=
    if types.IsNull (AccessKey data)
    then set_AccessKey data (types.StringValue (os.Getenv env "TF_PROVIDER_RGW_ACCESS_KEY"))
    else data in
  let data :=
    if types.IsNull (SecretKey data)
    then set_SecretKey data (types.StringValue (os.Getenv env "TF_PROVIDER_RGW_SECRET_KEY"))
    else data in
  let '(admin, err) :=
    admin_New (types.ValueString (Endpoint data)) (types.ValueString (AccessKey data))
              (types.ValueString (SecretKey data)) in
  match err with
  | Some e =>
      Diagnostics_AddError resp "could not create rgw admin client" (errors.Error e)
  | None =>
      let s3client :=
        s3.mkClient (types.ValueString (AccessKey data)) (types.ValueString (SecretKey data))
                    (types.ValueString (Endpoint data)) true in
      let client := mkRgwClient admin s3client in
      mkConfigureResponse (Diagnostics resp) (Some client) (Some client)
  end.

End Configure.

Arguments mkRgwClient {API}.
Arguments Admin {API}.
Arguments S3 {API}.
Arguments mkConfigureResponse {API}.
Arguments Diagnostics {API}.
Arguments DataSourceData {API}.
Arguments ResourceData {API}.
Arguments Configure {API}.

End RgwProvider.

(* ===================================================================== *)
(** ** Metadata and Configure of the resources *)

Module ResourceMetadata.

(** [resp.TypeName] as each resource's Metadata sets it, from
    [req.ProviderTypeName]. *)
Definition UserQuotaResource_Metadata (ProviderTypeName : string) : string :=
  (ProviderTypeName ++ "_quota")%string.
Definition QuotaResource_Metadata (ProviderTypeName : string) : string :=
  (ProviderTypeName ++ "_quota")%string.
Definition BucketQuotaResource_Metadata (ProviderTypeName : string) : string :=
  (ProviderTypeName ++ "_bucket_quota")%string.
Definition BucketLinkResource_Metadata (ProviderTypeName : string) : string :=
  (ProviderTypeName ++ "_bucket_link")%string.

End ResourceMetadata.

Module ResourceConfigure.

(** [req.ProviderData], of type [any]: nil, a [*RgwClient], or a value of
    another type, of which [%T] prints the name. *)
Inductive ProviderData (C : Type) : Type :=
| IsNil
| IsRgwClient (client : C)
| IsOther (type_name : string).
Arguments IsNil {C}.
Arguments IsRgwClient {C} client.
Arguments IsOther {C} type_name.

(** A resource value: its one field, [client], nil until configured. *)
Record Resource (C : Type) : Type := mkResource { client : option C }.
Arguments mkResource {C}.
Arguments client {C}.

Definition unexpected_type_detail (type_name : string) : string :=
  ("Expected *RgwClient, got: " ++ type_name
   ++ ". Please report this issue to the provider developers.")%string.

(** Configure, the same text in the four resources: the resource and the
    diagnostics of the response it leaves. *)
Definition Configure {C} (r : Resource C) (req_ProviderData : ProviderData C)
    (resp_Diagnostics : diag.Diagnostics) : Resource C * diag.Diagnostics :=
  match req_ProviderData with
  | IsNil => (r, resp_Diagnostics)
  | IsRgwClient client => (mkResource (Some client), resp_Diagnostics)
  | IsOther type_name =>
      (r, diag.AddError resp_Diagnostics "Unexpected Resource Configure Type"
            (unexpected_type_detail type_name))
  end.

(** The [any] the framework hands to a resource: the provider's
    [resp.ResourceData]. *)
Definition of_ResourceData {C} (data : option C) : ProviderData C :=
  match data with
  | Some client => IsRgwClient client
  | None => IsNil
  end.

End ResourceConfigure.

(* ===================================================================== *)
(** ** What the remote side answered, and the inputs used in examples *)

(** The error part of the remote side's answer to a call. *)
Definition error_of (remote : admin.Remote) (c : admin.Call) : option error :=
  match c with
  | admin.CallSetUserQuota q => admin.onSetUserQuota remote q
  | admin.CallSetBucketQuota q => admin.onSetBucketQuota remote q
  | admin.CallSetIndividualBucketQuota q => admin.onSetIndividualBucketQuota remote q
  | admin.CallGetUserQuota q => snd (admin.onGetUserQuota remote q)
  | admin.CallGetBucketQuota q => snd (admin.onGetBucketQuota remote q)
  | admin.CallGetBucketInfo b => snd (admin.onGetBucketInfo remote b)
  | admin.CallListUsersBuckets uid => snd (admin.onListUsersBuckets remote uid)
  | admin.CallLinkBucket l => admin.onLinkBucket remote l
  | admin.CallUnlinkBucket l => admin.onUnlinkBucket remote l
  end.

(** The quota specification a call carries. *)
Definition quota_of (c : admin.Call) : option admin.QuotaSpec :=
  match c with
  | admin.CallSetUserQuota q | admin.CallSetBucketQuota q
  | admin.CallSetIndividualBucketQuota q
  | admin.CallGetUserQuota q | admin.CallGetBucketQuota q => Some q
  | _ => None
  end.

(** The three quota setters of the admin API. *)
Inductive Setter : Type := SetUserQuota | SetBucketQuota | SetIndividualBucketQuota.

Definition setter_of (c : admin.Call) : option Setter :=
  match c with
  | admin.CallSetUserQuota _ => Some SetUserQuota
  | admin.CallSetBucketQuota _ => Some SetBucketQuota
  | admin.CallSetIndividualBucketQuota _ => Some SetIndividualBucketQuota
  | _ => None
  end.

(** The response a handler works on once it has read its plan or state. A
    handler goes on to its admin call only when this response holds no error;
    otherwise it returns it as it is. *)
Definition entered {M} (resp : resource.Response M) (src : tfsdk.Data M)
  : resource.Response M :=
  resource.Diagnostics_Append resp (tfsdk.Get_diags src).

Module Examples.

(** A gateway on which every request fails with [e]. *)
Definition failing (e : error) : admin.Remote :=
  admin.mkRemote
    (fun _ => Some e) (fun _ => Some e) (fun _ => Some e)
    (fun q => (admin.QuotaSpec_zero, Some e))
    (fun q => (admin.QuotaSpec_zero, Some e))
    (fun b => (admin.mkBucket "" admin.QuotaSpec_zero, Some e))
    (fun _ => ([], Some e))
    (fun _ => Some e) (fun _ => Some e).

(** A gateway on which every request succeeds; reads deliver the quota [q]
    under the requested user, and [buckets] as the user's buckets. *)
Definition serving (q : admin.QuotaSpec) (buckets : list string) : admin.Remote :=
  admin.mkRemote
    (fun _ => None) (fun _ => None) (fun _ => None)
    (fun r => (q, None))
    (fun r => (q, None))
    (fun b => (admin.mkBucket (admin.Bucket_Bucket b) q, None))
    (fun _ => (buckets, None))
    (fun _ => None) (fun _ => None).

(** A quota answer that sets every optional field. *)
Definition full_quota : admin.QuotaSpec :=
  admin.mkQuotaSpec "alice" "" "user" (Some true) false (Some 4096) (Some 4) (Some 10).

(** A quota answer that omits every optional field. *)
Definition bare_quota : admin.QuotaSpec :=
  admin.mkQuotaSpec "alice" "" "" None false None None None.

Definition user_quota (kb : types.Int64) : UserQuotaResource.UserQuotaResourceModel :=
  UserQuotaResource.mkModel (types.Known "alice") (types.Known true) (types.Known false)
                            types.Null kb (types.Known 10).

Definition quota (type_ : string) (kb : types.Int64) : QuotaResource.QuotaResourceModel :=
  QuotaResource.mkModel (types.Known "alice") (types.Known type_) (types.Known true)
                        (types.Known false) types.Unknown kb (types.Known (-1)).

Definition bucket_quota (kb : types.Int64) : BucketQuotaResource.BucketQuotaResourceModel :=
  BucketQuotaResource.mkModel (types.Known "photos") (types.Known "alice") (types.Known true)
                              (types.Known false) types.Unknown kb (types.Known (-1)).

Definition bucket_link (unlink : types.String) : BucketLinkResource.BucketLinkResourceModel :=
  BucketLinkResource.mkModel (types.Known "alice") (types.Known "photos") unlink.

(** A plan or state that decodes to [m] without complaint. *)
Definition clean {M} (m : M) : tfsdk.Data M := tfsdk.mkData [] m.

(** The response before a Create: no state, no diagnostics. *)
Definition fresh {M} : resource.Response M := resource.mkResponse None [].

(** The response before a Read, Update or Delete: the prior state [m]. *)
Definition holding {M} (m : M) : resource.Response M := resource.mkResponse (Some m) [].

End Examples.

(* ===================================================================== *)
(** ** Properties of handlers *)

Section Properties.
Import resource.
Context {M : Type}.

(** A Read that makes one call and, when that call fails, either takes the
    failure as the absence of the resource ([not_found]: the state is removed,
    nothing is reported) or reports it and leaves the state alone. *)
Definition not_found_removes
    (Read : ReadRequest M -> ReadResponse M -> Rgw (ReadResponse M))
    (not_found : error) (summary : string) : Prop :=
  forall (remote : admin.Remote) (req : ReadRequest M) (resp : ReadResponse M),
    let resp0 := entered resp (ReadRequest_State req) in
    diag.HasError (Diagnostics resp0) = false ->
    exists c : admin.Call,
      calls (Read req resp) remote = [c] /\
      forall e : error,
        error_of remote c = Some e ->
        let out := result (Read req resp) remote in
        (errors.Is e not_found = true ->
           State out = None /\ Diagnostics out = Diagnostics resp0) /\
        (errors.Is e not_found = false ->
           State out = State resp /\
           Diagnostics out
           = Diagnostics resp0 ++ [diag.NewErrorDiagnostic summary (errors.Error e)]).

(** A Create or Update ([handler], given the plan) that makes one call, to a
    quota setter: when the call fails, with whatever error, the failure is
    reported under [summary] and the state is the one the handler was given;
    the state is written when the call succeeded. *)
Definition writes_only_on_success
    (handler : tfsdk.Data M -> Response M -> Rgw (Response M))
    (summary : string) : Prop :=
  forall (remote : admin.Remote) (plan : tfsdk.Data M) (resp : Response M),
    diag.HasError (Diagnostics (entered resp plan)) = false ->
    exists (c : admin.Call) (s : Setter),
      calls (handler plan resp) remote = [c] /\
      setter_of c = Some s /\
      let out := result (handler plan resp) remote in
      (forall e : error,
         error_of remote c = Some e ->
         State out = State resp /\
         diag.HasError (Diagnostics out) = true /\
         Diagnostics out
         = Diagnostics (entered resp plan)
             ++ [diag.NewErrorDiagnostic summary (errors.Error e)]) /\
      (error_of remote c = None ->
         (exists m : M, State out = Some m) /\
         Diagnostics out = Diagnostics (entered resp plan)).

(** A Delete that sends exactly one request, to the quota setter that Create
    and Update use on the same model, with [Enabled] false. *)
Definition delete_disables
    (Create : CreateRequest M -> CreateResponse M -> Rgw (CreateResponse M))
    (Update : UpdateRequest M -> UpdateResponse M -> Rgw (UpdateResponse M))
    (Delete : DeleteRequest M -> DeleteResponse M -> Rgw (DeleteResponse M)) : Prop :=
  forall (remote : admin.Remote) (src : tfsdk.Data M) (resp : Response M),
    diag.HasError (Diagnostics (entered resp src)) = false ->
    exists (c c1 c2 : admin.Call) (q : admin.QuotaSpec) (s : Setter),
      calls (Delete {| DeleteRequest_State := src |} resp) remote = [c] /\
      setter_of c = Some s /\
      quota_of c = Some q /\
      admin.Enabled q = Some false /\
      calls (Create {| CreateRequest_Plan := src |} resp) remote = [c1] /\
      setter_of c1 = Some s /\
      calls (Update {| UpdateRequest_Plan := src |} resp) remote = [c2] /\
      setter_of c2 = Some s.

(** A Delete whose second error check never fires: every error of its one
    call is reported under [modify], and no diagnostic under [delete] is ever
    produced. *)
Definition second_check_dead
    (Delete : DeleteRequest M -> DeleteResponse M -> Rgw (DeleteResponse M))
    (modify delete : string) : Prop :=
  forall (remote : admin.Remote) (req : DeleteRequest M) (resp : DeleteResponse M),
    let resp0 := entered resp (DeleteRequest_State req) in
    let out := result (Delete req resp) remote in
    (diag.HasError (Diagnostics resp0) = false ->
     exists c : admin.Call,
       calls (Delete req resp) remote = [c] /\
       (forall e : error,
          error_of remote c = Some e ->
          Diagnostics out
          = Diagnostics resp0 ++ [diag.NewErrorDiagnostic modify (errors.Error e)]) /\
       (error_of remote c = None -> out = resp0)) /\
    (forall detail : string,
       In (diag.NewErrorDiagnostic delete detail) (Diagnostics out) ->
       In (diag.NewErrorDiagnostic delete detail) (Diagnostics resp)
       \/ In (diag.NewErrorDiagnostic delete detail)
             (tfsdk.Get_diags (DeleteRequest_State req))).

(** The [max_size] a successful Create or Update ([handler], given the plan)
    stores: -1 when [max_size_kb] reads as 0, else the 64-bit product with
    1024, which is the product itself while it fits. *)
Definition stores_max_size
    (handler : tfsdk.Data M -> Response M -> Rgw (Response M))
    (MaxSizeKB MaxSize : M -> types.Int64) : Prop :=
  forall (remote : admin.Remote) (plan : tfsdk.Data M) (resp : Response M) (c : admin.Call),
    diag.HasError (Diagnostics (entered resp plan)) = false ->
    calls (handler plan resp) remote = [c] ->
    error_of remote c = None ->
    let kb := types.ValueInt64 (MaxSizeKB (tfsdk.Get_data plan)) in
    exists m : M,
      State (result (handler plan resp) remote) = Some m /\
      (types.IsNull (MaxSizeKB (tfsdk.Get_data plan)) = true \/ kb = 0 ->
         MaxSize m = types.Known (-1)) /\
      (kb <> 0 -> MaxSize m = types.Known (GoInt.wrap64 (kb * 1024))) /\
      (kb <> 0 -> - 2 ^ 53 <= kb < 2 ^ 53 -> MaxSize m = types.Known (kb * 1024)).

End Properties.

(** A handler ([handler], given its plan) whose one call, when it fails with
    whatever error, is reported under [summary]. *)
Definition reports_every_error {M : Type}
    (handler : tfsdk.Data M -> resource.Response M -> Rgw (resource.Response M))
    (summary : string) : Prop :=
  forall (remote : admin.Remote) (plan : tfsdk.Data M) (resp : resource.Response M),
    diag.HasError (resource.Diagnostics (entered resp plan)) = false ->
    exists c : admin.Call,
      calls (handler plan resp) remote = [c] /\
      forall e : error,
        error_of remote c = Some e ->
        let out := result (handler plan resp) remote in
        diag.HasError (resource.Diagnostics out) = true /\
        In (diag.NewErrorDiagnostic summary (errors.Error e)) (resource.Diagnostics out).

(** The request a bucket link Delete sends. *)
Definition unlink_call (data : BucketLinkResource.BucketLinkResourceModel) : admin.Call :=
  if types.IsNull (BucketLinkResource.UnlinkToUID data)
  then admin.CallUnlinkBucket
         (admin.mkBucketLinkInput (types.ValueString (BucketLinkResource.Bucket data))
                                  (types.ValueString (BucketLinkResource.UID data)))
  else admin.CallLinkBucket
         (admin.mkBucketLinkInput (types.ValueString (BucketLinkResource.Bucket data))
                                  (types.ValueString (BucketLinkResource.UnlinkToUID data))).

(** The quota part of the remote side's answer to a read. *)
Definition quota_answer (remote : admin.Remote) (c : admin.Call) : option admin.QuotaSpec :=
  match c with
  | admin.CallGetUserQuota q => Some (fst (admin.onGetUserQuota remote q))
  | admin.CallGetBucketQuota q => Some (fst (admin.onGetBucketQuota remote q))
  | admin.CallGetBucketInfo b => Some (admin.BucketQuota (fst (admin.onGetBucketInfo remote b)))
  | _ => None
  end.

(** A field after a Read: the answer's value when the answer has one, the
    prior value otherwise. *)
Definition overwritten {A B} (conv : A -> B) (answer : option A) (prior : types.Value B)
  : types.Value B :=
  match answer with
  | Some v => types.Known (conv v)
  | None => prior
  end.

(** What the request built from a model says about sizes and objects. *)
Definition size_request (max_size_kb max_objects : types.Int64) (q : admin.QuotaSpec) : Prop :=
  (types.IsNull max_size_kb = true \/ types.ValueInt64 max_size_kb = 0 ->
     admin.MaxSize q = Some (-1) /\ admin.MaxSizeKb q = None) /\
  (types.IsNull max_size_kb = false ->
   types.ValueInt64 max_size_kb <> 0 ->
   GoInt.in_int64 (types.ValueInt64 max_size_kb) ->
     admin.MaxSizeKb q = Some (types.ValueInt64 max_size_kb) /\ admin.MaxSize q = None) /\
  (types.IsNull max_objects = true -> admin.MaxObjects q = None) /\
  (types.IsNull max_objects = false ->
     admin.MaxObjects q = Some (types.ValueInt64 max_objects)).

(** A Read of a quota resource, for the identifier fields [ids] of its model:
    no outcome changes them, and a successful Read (the answer passing the
    handler's check [accepts]) stores each optional field of the answer that
    is set and keeps the prior value of each one that is omitted. *)
Definition read_frame {M : Type}
    (Read : resource.ReadRequest M -> resource.ReadResponse M -> Rgw (resource.ReadResponse M))
    (ids : M -> list types.String)
    (Enabled : M -> types.Bool) (MaxSize MaxSizeKB MaxObjects : M -> types.Int64)
    (accepts : M -> admin.QuotaSpec -> bool) : Prop :=
  forall (remote : admin.Remote) (req : resource.ReadRequest M) (resp : resource.ReadResponse M),
    let data := tfsdk.Get_data (resource.ReadRequest_State req) in
    let out := result (Read req resp) remote in
    (forall m : M,
       resource.State out = Some m ->
       resource.State out = resource.State resp \/ ids m = ids data) /\
    (diag.HasError (resource.Diagnostics (entered resp (resource.ReadRequest_State req))) = false ->
     forall (c : admin.Call) (q : admin.QuotaSpec),
       calls (Read req resp) remote = [c] ->
       error_of remote c = None ->
       quota_answer remote c = Some q ->
       accepts data q = true ->
       exists m : M,
         resource.State out = Some m /\
         ids m = ids data /\
         Enabled m = overwritten (fun b => b) (admin.Enabled q) (Enabled data) /\
         MaxSize m = overwritten (fun n => n) (admin.MaxSize q) (MaxSize data) /\
         MaxSizeKB m = overwritten GoInt.int64_of_int (admin.MaxSizeKb q) (MaxSizeKB data) /\
         MaxObjects m = overwritten (fun n => n) (admin.MaxObjects q) (MaxObjects data)).

(** The check of the user quota Read: the answer is about the stored user. *)
Definition same_user (data : UserQuotaResource.UserQuotaResourceModel) (q : admin.QuotaSpec)
  : bool :=
  String.eqb (types.ValueString (UserQuotaResource.UID data)) (admin.UID q).

(** A handler that sends at most one request, and none at all when the
    response holds an error once the plan or state is read: it then returns
    that response as it is. *)
Definition at_most_one_call {M Req : Type} (src : Req -> tfsdk.Data M)
    (handler : Req -> resource.Response M -> Rgw (resource.Response M)) : Prop :=
  forall (remote : admin.Remote) (req : Req) (resp : resource.Response M),
    (length (calls (handler req resp) remote) <= 1)%nat /\
    (diag.HasError (resource.Diagnostics (entered resp (src req))) = true ->
     run (handler req resp) remote = (entered resp (src req), [])).

(** A handler that never drops a diagnostic it was handed, nor one reported
    while reading its plan or state. *)
Definition keeps_diagnostics {M Req : Type} (src : Req -> tfsdk.Data M)
    (handler : Req -> resource.Response M -> Rgw (resource.Response M)) : Prop :=
  forall (remote : admin.Remote) (req : Req) (resp : resource.Response M)
         (d : diag.Diagnostic),
    In d (resource.Diagnostics resp) \/ In d (tfsdk.Get_diags (src req)) ->
    In d (resource.Diagnostics (result (handler req resp) remote)).

(** A Delete that leaves the state of the response as it found it. *)
Definition leaves_state {M : Type}
    (Delete : resource.DeleteRequest M -> resource.DeleteResponse M
              -> Rgw (resource.DeleteResponse M)) : Prop :=
  forall (remote : admin.Remote) (req : resource.DeleteRequest M)
         (resp : resource.DeleteResponse M),
    resource.State (result (Delete req resp) remote) = resource.State resp.

(** A Read that is stable: run on a response that holds the prior state, it
    leaves a state on which a second Read, against the same gateway, changes
    nothing. *)
Definition read_stable {M : Type}
    (Read : resource.ReadRequest M -> resource.ReadResponse M
            -> Rgw (resource.ReadResponse M)) : Prop :=
  forall (remote : admin.Remote) (data m : M) (ds ds' : diag.Diagnostics)
         (resp resp' : resource.ReadResponse M),
    let req := {| resource.ReadRequest_State := tfsdk.mkData ds data |} in
    let req' := {| resource.ReadRequest_State := tfsdk.mkData ds' m |} in
    resource.State resp = Some data ->
    diag.HasError (resource.Diagnostics (entered resp (tfsdk.mkData ds data))) = false ->
    resource.State (result (Read req resp) remote) = Some m ->
    resource.State resp' = Some m ->
    diag.HasError (resource.Diagnostics (entered resp' (tfsdk.mkData ds' m))) = false ->
    resource.State (result (Read req' resp') remote) = Some m.

(** A successful Read of a quota resource stores [check_on_raw] from the
    answer, whatever the prior value. *)
Definition read_check_on_raw {M : Type}
    (Read : resource.ReadRequest M -> resource.ReadResponse M -> Rgw (resource.ReadResponse M))
    (CheckOnRaw : M -> types.Bool) (accepts : M -> admin.QuotaSpec -> bool) : Prop :=
  forall (remote : admin.Remote) (req : resource.ReadRequest M) (resp : resource.ReadResponse M)
         (c : admin.Call) (q : admin.QuotaSpec),
    diag.HasError (resource.Diagnostics (entered resp (resource.ReadRequest_State req))) = false ->
    calls (Read req resp) remote = [c] ->
    error_of remote c = None ->
    quota_answer remote c = Some q ->
    accepts (tfsdk.Get_data (resource.ReadRequest_State req)) q = true ->
    exists m : M,
      resource.State (result (Read req resp) remote) = Some m /\
      CheckOnRaw m = types.Known (admin.CheckOnRaw q).

(** A Create or Update ([handler]) that, when its call succeeds, stores the
    part [kept] of the planned model as planned. *)
Definition stores_as_planned {M Req X : Type} (src : Req -> tfsdk.Data M)
    (handler : Req -> resource.Response M -> Rgw (resource.Response M))
    (kept : M -> X) : Prop :=
  forall (remote : admin.Remote) (req : Req) (resp : resource.Response M) (c : admin.Call),
    diag.HasError (resource.Diagnostics (entered resp (src req))) = false ->
    calls (handler req resp) remote = [c] ->
    error_of remote c = None ->
    exists m : M,
      resource.State (result (handler req resp) remote) = Some m /\
      kept m = kept (tfsdk.Get_data (src req)).

Module ProviderExamples.

(** An admin client handle that remembers what it was made from, and a
    constructor that refuses an empty endpoint or key. *)
Record Handle : Type := mkHandle {
  endpoint : string;
  accessKey : string;
  secretKey : string
}.

Definition New (ep ak sk : string) : Handle * option error :=
  (mkHandle ep ak sk,
   if String.eqb ep "" then Some (ErrReason "endpoint not set")
   else if String.eqb ak "" then Some (ErrReason "access key not set")
   else if String.eqb sk "" then Some (ErrReason "secret key not set")
   else None).

Definition environment : os.Environ :=
  [("TF_PROVIDER_RGW_ACCESS_KEY", "AKIA"); ("TF_PROVIDER_RGW_SECRET_KEY", "s3cr3t");
   ("TF_PROVIDER_RGW_ACCESS_KEY", "shadowed")].

(** A configuration that sets the endpoint and leaves the keys out. *)
Definition config : RgwProvider.ConfigureRequest :=
  {| RgwProvider.Config :=
       tfsdk.mkData [] (RgwProvider.mkModel (types.Known "http://rgw:8080")
                                            types.Null types.Null) |}.

(** A configuration that sets everything. *)
Definition full_config : RgwProvider.ConfigureRequest :=
  {| RgwProvider.Config :=
       tfsdk.mkData [] (RgwProvider.mkModel (types.Known "http://rgw:8080")
                                            (types.Known "key") (types.Known "secret")) |}.

Definition blank : RgwProvider.ConfigureResponse Handle :=
  RgwProvider.mkConfigureResponse [] None None.

End ProviderExamples.

(* ===================================================================== *)
(** ** Diagnostics: facts used throughout *)

Section DiagFacts.
Import diag.

Lemma severity_eqb_eq (a b : Severity) : severity_eqb a b = true <-> a = b.
Proof. destruct a, b; simpl; split; congruence. Qed.

Lemma Equal_eq (a b : Diagnostic) : Equal a b = true <-> a = b.
Proof.
  destruct a as [sa ma da], b as [sb mb db]; unfold Equal; simpl.
  rewrite !andb_true_iff, severity_eqb_eq, !String.eqb_eq.
  split.
  - intros [[-> ->] ->]. reflexivity.
  - intros H. injection H as -> -> ->. auto.
Qed.

Lemma Contains_In (ds : Diagnostics) (d : Diagnostic) :
  Contains ds d = true <-> In d ds.
Proof.
  unfold Contains. rewrite existsb_exists. split.
  - intros [x [Hin Heq]]. apply Equal_eq in Heq. now subst.
  - intros Hin. exists d. split; [assumption | now apply Equal_eq].
Qed.

Lemma HasError_false_not_error (ds : Diagnostics) (d : Diagnostic) :
  HasError ds = false -> In d ds -> is_error d = false.
Proof.
  unfold HasError. intros Hno Hin.
  destruct (is_error d) eqn:E; [| reflexivity].
  assert (existsb is_error ds = true) as Habs by (apply existsb_exists; eauto).
  congruence.
Qed.

(** Under a response without errors a new error is not a repeat: it is added
    at the end. *)
Lemma AddError_fresh (ds : Diagnostics) (summary detail : string) :
  HasError ds = false ->
  AddError ds summary detail = ds ++ [NewErrorDiagnostic summary detail].
Proof.
  intros Hno. unfold AddError. simpl.
  destruct (Contains ds (NewErrorDiagnostic summary detail)) eqn:C; [| reflexivity].
  apply Contains_In in C.
  apply (HasError_false_not_error _ _ Hno) in C. discriminate.
Qed.

Lemma AddError_In (ds : Diagnostics) (summary detail : string) :
  In (NewErrorDiagnostic summary detail) (AddError ds summary detail).
Proof.
  unfold AddError. simpl.
  destruct (Contains ds (NewErrorDiagnostic summary detail)) eqn:C.
  - now apply Contains_In.
  - apply in_or_app. right. now left.
Qed.

Lemma AddError_inv (ds : Diagnostics) (summary detail : string) (d : Diagnostic) :
  In d (AddError ds summary detail) ->
  In d ds \/ d = NewErrorDiagnostic summary detail.
Proof.
  unfold AddError. simpl.
  destruct (Contains ds (NewErrorDiagnostic summary detail)).
  - auto.
  - intros H. apply in_app_or in H. destruct H as [H | [H | []]]; auto.
Qed.

Lemma HasError_app (a b : Diagnostics) :
  HasError (a ++ b) = HasError a || HasError b.
Proof. unfold HasError. apply existsb_app. Qed.

Lemma HasError_AddError (ds : Diagnostics) (summary detail : string) :
  HasError (AddError ds summary detail) = true.
Proof.
  unfold HasError. apply existsb_exists.
  exists (NewErrorDiagnostic summary detail). split; [apply AddError_In | reflexivity].
Qed.

Lemma Append_In_inv (new ds : Diagnostics) (d : Diagnostic) :
  In d (Append ds new) -> In d ds \/ In d new.
Proof.
  revert ds. induction new as [| x rest IH]; intros ds; simpl.
  - auto.
  - destruct (Contains ds x).
    + intros H. destruct (IH _ H); auto.
    + intros H. destruct (IH _ H) as [H' | H']; auto.
      apply in_app_or in H'. destruct H' as [H' | [H' | []]]; auto.
Qed.

End DiagFacts.

(* ===================================================================== *)
(** ** Stepping through a handler *)

(** Unfold a handler run down to the remote side's answers. *)
Ltac handler_run :=
  unfold result, calls, run, entered,
    UserQuotaResource.Create, UserQuotaResource.Read,
    UserQuotaResource.Update, UserQuotaResource.Delete,
    QuotaResource.Create, QuotaResource.Read,
    QuotaResource.Update, QuotaResource.Delete,
    BucketQuotaResource.Create, BucketQuotaResource.Read,
    BucketQuotaResource.Update, BucketQuotaResource.Delete,
    BucketLinkResource.Create, BucketLinkResource.Read,
    BucketLinkResource.Update, BucketLinkResource.Delete,
    Admin.SetUserQuota, Admin.SetBucketQuota, Admin.SetIndividualBucketQuota,
    Admin.GetUserQuota, Admin.GetBucketQuota, Admin.GetBucketInfo,
    Admin.ListUsersBuckets, Admin.LinkBucket, Admin.UnlinkBucket,
    bind, send, ret in *;
  cbn [resource.Diagnostics_Append resource.Diagnostics resource.State
       resource.State_RemoveResource resource.Save resource.State_Set
       resource.Diagnostics_AddError fst snd app error_of
       resource.CreateRequest_Plan resource.ReadRequest_State
       resource.UpdateRequest_Plan resource.DeleteRequest_State] in *.

(** Split on whatever a goal still branches on. *)
Ltac split_branches :=
  repeat match goal with
         | |- context [match ?x with _ => _ end] => destruct x eqn:?
         end.

(** The generic quota resource picks its call by the [type] attribute. *)
Ltac split_type :=
  try match goal with
      | |- context [String.eqb ?a "user"] => destruct (String.eqb a "user")
      end.

Ltac read_not_found :=
  intros remote req resp resp0 Hok; subst resp0;
  handler_run; rewrite Hok; split_type;
  eexists; (split; [split_branches; reflexivity |]);
  intros e He; cbn [error_of] in He;
  match goal with
  | |- context [let (_, _) := ?a in _] =>
      let err := fresh "err" in
      destruct a as [? err]; cbn [snd] in He; subst err
  end;
  split; intros HIs; rewrite HIs;
  cbn [fst resource.State resource.Diagnostics
       resource.State_RemoveResource resource.Diagnostics_AddError];
  (split; [reflexivity | try reflexivity; now apply AddError_fresh]).

(** With an error on entry a handler returns at once, without any call. *)
Lemma Delete_stops_on_entry_error
    (remote : admin.Remote)
    (req : resource.DeleteRequest UserQuotaResource.UserQuotaResourceModel)
    (resp : resource.DeleteResponse UserQuotaResource.UserQuotaResourceModel) :
  diag.HasError (resource.Diagnostics (entered resp (resource.DeleteRequest_State req))) = true ->
  run (UserQuotaResource.Delete req resp) remote
  = (entered resp (resource.DeleteRequest_State req), []).
Proof. intros Herr. handler_run. now rewrite Herr. Qed.

Lemma UserQuota_Read_not_found :
  not_found_removes UserQuotaResource.Read ErrNoSuchUser "could not get user quota".
Proof. read_not_found. Qed.

Lemma Quota_Read_not_found :
  not_found_removes QuotaResource.Read ErrNoSuchUser "could not get user quota".
Proof. read_not_found. Qed.

Lemma BucketQuota_Read_not_found :
  not_found_removes BucketQuotaResource.Read ErrNoSuchBucket "could not get bucket quota".
Proof. read_not_found. Qed.

Lemma BucketLink_Read_not_found :
  not_found_removes BucketLinkResource.Read ErrNoSuchUser "could not get user's buckets".
Proof. read_not_found. Qed.

(** *** Create and Update of the quota resources *)

Ltac write_only :=
  intros remote plan resp Hok;
  handler_run; rewrite Hok; split_type;
  do 2 eexists; (split; [split_branches; reflexivity |]);
  (split; [reflexivity |]);
  cbn [error_of];
  (split;
   [ intros e He; rewrite He;
     cbn [fst resource.State resource.Diagnostics resource.Diagnostics_AddError];
     split; [reflexivity | split; [apply HasError_AddError | now apply AddError_fresh]]
   | intros He; rewrite He;
     cbn [fst resource.State resource.Diagnostics resource.Diagnostics_Append
          resource.Save resource.State_Set diag.Append];
     split; [eexists; reflexivity | reflexivity] ]).

Lemma UserQuota_Create_writes :
  writes_only_on_success
    (fun plan => UserQuotaResource.Create {| resource.CreateRequest_Plan := plan |})
    "could not create user quota".
Proof. write_only. Qed.

Lemma UserQuota_Update_writes :
  writes_only_on_success
    (fun plan => UserQuotaResource.Update {| resource.UpdateRequest_Plan := plan |})
    "could not modify user quota".
Proof. write_only. Qed.

Lemma Quota_Create_writes :
  writes_only_on_success
    (fun plan => QuotaResource.Create {| resource.CreateRequest_Plan := plan |})
    "could not create user quota".
Proof. write_only. Qed.

Lemma Quota_Update_writes :
  writes_only_on_success
    (fun plan => QuotaResource.Update {| resource.UpdateRequest_Plan := plan |})
    "could not modify user quota".
Proof. write_only. Qed.

Lemma BucketQuota_Create_writes :
  writes_only_on_success
    (fun plan => BucketQuotaResource.Create {| resource.CreateRequest_Plan := plan |})
    "could not create bucket quota".
Proof. write_only. Qed.

Lemma BucketQuota_Update_writes :
  writes_only_on_success
    (fun plan => BucketQuotaResource.Update {| resource.UpdateRequest_Plan := plan |})
    "could not modify bucket quota".
Proof. write_only. Qed.

(** *** Delete of the quota resources *)

Ltac delete_one_call :=
  intros remote src resp Hok;
  handler_run; rewrite Hok; split_type;
  do 5 eexists;
  repeat (split; [first [split_branches; reflexivity | reflexivity] |]);
  split_branches; reflexivity.

Lemma UserQuota_delete_disables :
  delete_disables UserQuotaResource.Create UserQuotaResource.Update UserQuotaResource.Delete.
Proof. delete_one_call. Qed.

Lemma Quota_delete_disables :
  delete_disables QuotaResource.Create QuotaResource.Update QuotaResource.Delete.
Proof. delete_one_call. Qed.

Lemma BucketQuota_delete_disables :
  delete_disables BucketQuotaResource.Create BucketQuotaResource.Update
                  BucketQuotaResource.Delete.
Proof. delete_one_call. Qed.

Lemma entered_In {M} (resp : resource.Response M) (src : tfsdk.Data M) (d : diag.Diagnostic) :
  In d (diag.Append (resource.Diagnostics resp) (tfsdk.Get_diags src)) ->
  In d (resource.Diagnostics resp) \/ In d (tfsdk.Get_diags src).
Proof. apply Append_In_inv. Qed.

Ltac second_check :=
  intros remote req resp resp0 out; subst resp0 out; split;
  [ intros Hok; handler_run; rewrite Hok; split_type;
    eexists; (split; [split_branches; reflexivity |]);
    cbn [error_of];
    (split;
     [ intros e He; rewrite He;
       cbn [fst resource.Diagnostics resource.Diagnostics_AddError];
       now apply AddError_fresh
     | intros He; rewrite He; reflexivity ])
  | intros detail; handler_run;
    split_branches; cbn [fst resource.Diagnostics resource.Diagnostics_AddError];
    intros Hin;
    try (apply AddError_inv in Hin; destruct Hin as [Hin | Hin]; [| discriminate Hin]);
    now apply entered_In ].

Lemma UserQuota_second_check_dead :
  second_check_dead UserQuotaResource.Delete
    "could not modify user quota" "could not delete user quota".
Proof. second_check. Qed.

Lemma Quota_second_check_dead :
  second_check_dead QuotaResource.Delete
    "could not modify user quota" "could not delete user quota".
Proof. second_check. Qed.

Lemma BucketQuota_second_check_dead :
  second_check_dead BucketQuotaResource.Delete
    "could not modify bucket quota" "could not delete bucket quota".
Proof. second_check. Qed.

(** *** 64-bit arithmetic *)

Lemma wrap64_small (x : Z) : GoInt.in_int64 x -> GoInt.wrap64 x = x.
Proof.
  unfold GoInt.in_int64, GoInt.wrap64. intros H.
  rewrite Z.mod_small by lia. lia.
Qed.

Lemma wrap64_range (x : Z) : GoInt.in_int64 (GoInt.wrap64 x).
Proof.
  unfold GoInt.in_int64, GoInt.wrap64.
  pose proof (Z.mod_pos_bound (x + 2 ^ 63) (2 ^ 64) ltac:(lia)). lia.
Qed.

Lemma kb_to_bytes_exact (kb : Z) :
  - 2 ^ 53 <= kb < 2 ^ 53 -> GoInt.int64_mul kb 1024 = kb * 1024.
Proof.
  intros H. unfold GoInt.int64_mul. apply wrap64_small.
  unfold GoInt.in_int64. lia.
Qed.

(** *** The stored [max_size] *)

Ltac stored_size :=
  intros remote plan resp c Hok Hc Herr kb; subst kb;
  handler_run; rewrite Hok in *; split_type;
  match type of Hc with
  | context [match ?a with _ => _ end] =>
      let A := fresh "A" in
      destruct a eqn:A; cbn [snd fst] in Hc; injection Hc as <-;
      cbn [error_of] in Herr; rewrite A in Herr; try discriminate Herr
  end;
  cbn [fst resource.State resource.Diagnostics_Append];
  eexists; (split; [reflexivity |]);
  (split;
   [ intros [Hnull | Hzero];
     [ match goal with
       | H : types.IsNull ?v = true |- _ => destruct v; try discriminate H
       end; reflexivity
     | rewrite Hzero; reflexivity ]
   | split;
     [ intros Hnz; apply Z.eqb_neq in Hnz; rewrite Hnz; reflexivity
     | intros Hnz Hfit; apply Z.eqb_neq in Hnz; rewrite Hnz;
       cbn [negb QuotaResource.set_MaxSize QuotaResource.MaxSize
            BucketQuotaResource.set_MaxSize BucketQuotaResource.MaxSize];
       unfold types.Int64Value; now rewrite kb_to_bytes_exact ] ]).

Lemma Quota_Create_stores :
  stores_max_size
    (fun plan => QuotaResource.Create {| resource.CreateRequest_Plan := plan |})
    QuotaResource.MaxSizeKB QuotaResource.MaxSize.
Proof. stored_size. Qed.

Lemma Quota_Update_stores :
  stores_max_size
    (fun plan => QuotaResource.Update {| resource.UpdateRequest_Plan := plan |})
    QuotaResource.MaxSizeKB QuotaResource.MaxSize.
Proof. stored_size. Qed.

Lemma BucketQuota_Create_stores :
  stores_max_size
    (fun plan => BucketQuotaResource.Create {| resource.CreateRequest_Plan := plan |})
    BucketQuotaResource.MaxSizeKB BucketQuotaResource.MaxSize.
Proof. stored_size. Qed.

Lemma BucketQuota_Update_stores :
  stores_max_size
    (fun plan => BucketQuotaResource.Update {| resource.UpdateRequest_Plan := plan |})
    BucketQuotaResource.MaxSizeKB BucketQuotaResource.MaxSize.
Proof. stored_size. Qed.

(** *** The request built from a model *)

Lemma int_of_int64_small (x : Z) : GoInt.in_int64 x -> GoInt.int_of_int64 x = x.
Proof. apply wrap64_small. Qed.

Ltac size_request_cases kb mo :=
  cbv zeta;
  repeat apply conj;
  [ intros H;
    assert (negb (types.IsNull kb) && negb (types.ValueInt64 kb =? 0) = false) as ->
      by (destruct H as [H | H]; rewrite H; [reflexivity | apply andb_false_r]);
    destruct (negb (types.IsNull mo)); split; reflexivity
  | intros Hn Hz Hfit; rewrite Hn; apply Z.eqb_neq in Hz; rewrite Hz;
    cbn [negb andb]; rewrite (int_of_int64_small _ Hfit);
    destruct (negb (types.IsNull mo)); split; reflexivity
  | intros H; rewrite H;
    destruct (negb (types.IsNull kb) && negb (types.ValueInt64 kb =? 0)); reflexivity
  | intros H; rewrite H;
    destruct (negb (types.IsNull kb) && negb (types.ValueInt64 kb =? 0)); reflexivity ].

Lemma Quota_size_request (data : QuotaResource.QuotaResourceModel) :
  size_request (QuotaResource.MaxSizeKB data) (QuotaResource.MaxObjects data)
               (QuotaResource.rgwQuotaFromSchemaQuota data).
Proof.
  unfold size_request, QuotaResource.rgwQuotaFromSchemaQuota.
  size_request_cases (QuotaResource.MaxSizeKB data) (QuotaResource.MaxObjects data).
Qed.

Lemma BucketQuota_size_request (data : BucketQuotaResource.BucketQuotaResourceModel) :
  size_request (BucketQuotaResource.MaxSizeKB data) (BucketQuotaResource.MaxObjects data)
               (BucketQuotaResource.rgwBucketQuotaFromSchemaQuota data).
Proof.
  unfold size_request, BucketQuotaResource.rgwBucketQuotaFromSchemaQuota.
  size_request_cases (BucketQuotaResource.MaxSizeKB data)
                     (BucketQuotaResource.MaxObjects data).
Qed.

(** *** The bucket link resource *)

Lemma findString_In (slice : list string) (str : string) :
  BucketLinkResource.findString slice str = true <-> In str slice.
Proof.
  induction slice as [| item rest IH]; simpl.
  - split; [discriminate | contradiction].
  - destruct (String.eqb item str) eqn:E.
    + apply String.eqb_eq in E. split; auto.
    + apply String.eqb_neq in E. rewrite IH. split; [auto |].
      intros [H | H]; [contradiction | assumption].
Qed.

(** *** Read of the quota resources *)

Ltac read_ids :=
  intros m Hm; handler_run; split_branches; cbn [fst resource.State] in Hm |- *;
  first [ left; reflexivity
        | discriminate Hm
        | right; injection Hm as <-; reflexivity ].

Ltac read_fields :=
  intros Hok c q Hc Herr Hq Hacc; unfold same_user in *;
  handler_run; rewrite Hok in *; split_type;
  match type of Hc with
  | context [let (_, _) := ?a in _] =>
      let err := fresh "err" in
      let ans := fresh "ans" in
      let A := fresh "A" in
      destruct a as [ans [e |]] eqn:A;
      [ destruct (errors.Is e _); cbn [snd fst] in Hc; injection Hc as <-;
        cbn [error_of] in Herr; rewrite A in Herr; discriminate Herr
      | try match type of Hc with
            | context [if ?b then _ else _] => destruct b eqn:?
            end;
        cbn [snd fst] in Hc; injection Hc as <-;
        cbn [quota_answer] in Hq; rewrite A in Hq; cbn [fst] in Hq; injection Hq as <-;
        try (rewrite Hacc in *; discriminate) ]
  end;
  cbn [fst resource.State resource.Diagnostics_Append];
  eexists; (split; [reflexivity |]);
  repeat apply conj;
  split_branches; reflexivity.

Lemma UserQuota_read_frame :
  read_frame UserQuotaResource.Read
    (fun m => [UserQuotaResource.UID m])
    UserQuotaResource.Enabled UserQuotaResource.MaxSize
    UserQuotaResource.MaxSizeKB UserQuotaResource.MaxObjects
    same_user.
Proof.
  intros remote req resp data out; subst data out; split.
  - read_ids.
  - read_fields.
Qed.

Lemma Quota_read_frame :
  read_frame QuotaResource.Read
    (fun m => [QuotaResource.UID m; QuotaResource.Type_ m])
    QuotaResource.Enabled QuotaResource.MaxSize
    QuotaResource.MaxSizeKB QuotaResource.MaxObjects
    (fun _ _ => true).
Proof.
  intros remote req resp data out; subst data out; split.
  - read_ids.
  - read_fields.
Qed.

Lemma BucketQuota_read_frame :
  read_frame BucketQuotaResource.Read
    (fun m => [BucketQuotaResource.Bucket m; BucketQuotaResource.UID m])
    BucketQuotaResource.Enabled BucketQuotaResource.MaxSize
    BucketQuotaResource.MaxSizeKB BucketQuotaResource.MaxObjects
    (fun _ _ => true).
Proof.
  intros remote req resp data out; subst data out; split.
  - read_ids.
  - read_fields.
Qed.

(** *** Every error of a Create or Update is reported *)

Lemma writes_reports {M : Type}
    (handler : tfsdk.Data M -> resource.Response M -> Rgw (resource.Response M))
    (summary : string) :
  writes_only_on_success handler summary -> reports_every_error handler summary.
Proof.
  intros H remote plan resp Hok.
  destruct (H remote plan resp Hok) as [c [s [Hc [_ [Herr _]]]]].
  exists c. split; [exact Hc |].
  intros e He out. subst out.
  destruct (Herr e He) as [_ [Hhas Hds]].
  split; [exact Hhas |].
  rewrite Hds. apply in_or_app. right. now left.
Qed.

Lemma BucketLink_Create_reports :
  reports_every_error
    (fun plan => BucketLinkResource.Create {| resource.CreateRequest_Plan := plan |})
    "could not create bucket link".
Proof.
  intros remote plan resp Hok.
  handler_run; rewrite Hok.
  eexists; (split; [split_branches; reflexivity |]).
  intros e He. cbn [error_of] in He. rewrite He.
  cbn [fst resource.Diagnostics resource.Diagnostics_AddError].
  split; [apply HasError_AddError | apply AddError_In].
Qed.

(** What a bucket link Delete does, by the answer to its one request. *)
Lemma BucketLink_Delete_run
    (remote : admin.Remote)
    (req : resource.DeleteRequest BucketLinkResource.BucketLinkResourceModel)
    (resp : resource.DeleteResponse BucketLinkResource.BucketLinkResourceModel) :
  let data := tfsdk.Get_data (resource.DeleteRequest_State req) in
  let resp0 := entered resp (resource.DeleteRequest_State req) in
  let out := result (BucketLinkResource.Delete req resp) remote in
  diag.HasError (resource.Diagnostics resp0) = false ->
  calls (BucketLinkResource.Delete req resp) remote = [unlink_call data] /\
  (error_of remote (unlink_call data) = None -> out = resp0) /\
  (forall e : error,
     error_of remote (unlink_call data) = Some e ->
     (errors.Is e ErrNoSuchBucket = true -> out = resp0) /\
     (errors.Is e ErrNoSuchBucket = false ->
        resource.State out = resource.State resp /\
        resource.Diagnostics out
        = resource.Diagnostics resp0
            ++ [diag.NewErrorDiagnostic "could not delete bucket link" (errors.Error e)])).
Proof.
  intros data resp0 out Hok. subst data resp0 out.
  unfold unlink_call. handler_run. rewrite Hok.
  destruct (types.IsNull _); cbn [error_of].
  all: split; [split_branches; reflexivity |].
  all: split; [intros He; rewrite He; reflexivity |].
  all: intros e He; rewrite He; split; intros HIs; rewrite HIs; cbn [negb fst];
    [ reflexivity
    | cbn [resource.State resource.Diagnostics resource.Diagnostics_AddError];
      split; [reflexivity | now apply AddError_fresh] ].
Qed.

(* ===================================================================== *)
(** ** The properties of the specification *)

Import Examples.

(** C1. Every Read (user quota, generic quota, bucket quota, bucket link)
    makes one admin call; when it fails with the resource's not-found error
    ([ErrNoSuchUser] for the two quota reads and the bucket link read,
    [ErrNoSuchBucket] for the bucket quota read) the resource is removed from
    state and no diagnostic is added; on any other error one error diagnostic
    is added and the state is the one the handler was given. *)
Theorem Read_not_found_removes_resource :
  not_found_removes UserQuotaResource.Read ErrNoSuchUser "could not get user quota" /\
  not_found_removes QuotaResource.Read ErrNoSuchUser "could not get user quota" /\
  not_found_removes BucketQuotaResource.Read ErrNoSuchBucket "could not get bucket quota" /\
  not_found_removes BucketLinkResource.Read ErrNoSuchUser "could not get user's buckets".
Proof.
  repeat apply conj.
  - exact UserQuota_Read_not_found.
  - exact Quota_Read_not_found.
  - exact BucketQuota_Read_not_found.
  - exact BucketLink_Read_not_found.
Qed.

(** C1 at work: a bucket quota whose bucket is gone is dropped from state
    without a diagnostic, while a missing user, which that Read does not test
    for, is reported and leaves the state in place. *)
Lemma Read_not_found_removes_resource_witness :
  let req := {| resource.ReadRequest_State := clean (bucket_quota (types.Known 4)) |} in
  let resp := holding (bucket_quota (types.Known 4)) in
  (resource.State (result (BucketQuotaResource.Read req resp) (failing ErrNoSuchBucket)) = None /\
   resource.Diagnostics (result (BucketQuotaResource.Read req resp) (failing ErrNoSuchBucket)) = []) /\
  (resource.State (result (BucketQuotaResource.Read req resp) (failing ErrNoSuchUser))
   = Some (bucket_quota (types.Known 4)) /\
   resource.Diagnostics (result (BucketQuotaResource.Read req resp) (failing ErrNoSuchUser))
   = [diag.NewErrorDiagnostic "could not get bucket quota" "NoSuchUser"]).
Proof.
  intros req resp.
  destruct Read_not_found_removes_resource as [_ [_ [H _]]].
  split.
  - destruct (H (failing ErrNoSuchBucket) req resp eq_refl) as [c [Hc Hspec]].
    injection Hc as <-.
    exact (proj1 (Hspec ErrNoSuchBucket eq_refl) eq_refl).
  - destruct (H (failing ErrNoSuchUser) req resp eq_refl) as [c [Hc Hspec]].
    injection Hc as <-.
    exact (proj2 (Hspec ErrNoSuchUser eq_refl) eq_refl).
Defined.

(** C2. Delete of each quota resource (user quota, generic quota, bucket
    quota) sends exactly one request: to the setter that Create and Update of
    the same resource use on the same model ([SetUserQuota],
    [SetBucketQuota] or [SetIndividualBucketQuota]), with [Enabled] false.
    The remote quota is disabled, nothing is removed. *)
Theorem Delete_disables_through_the_setter :
  delete_disables UserQuotaResource.Create UserQuotaResource.Update
                  UserQuotaResource.Delete /\
  delete_disables QuotaResource.Create QuotaResource.Update QuotaResource.Delete /\
  delete_disables BucketQuotaResource.Create BucketQuotaResource.Update
                  BucketQuotaResource.Delete.
Proof.
  repeat apply conj.
  - exact UserQuota_delete_disables.
  - exact Quota_delete_disables.
  - exact BucketQuota_delete_disables.
Qed.

(** C2 at work: deleting a generic quota of type bucket. *)
Lemma Delete_disables_through_the_setter_witness :
  exists (c c1 c2 : admin.Call) (q : admin.QuotaSpec) (s : Setter),
    calls (QuotaResource.Delete
             {| resource.DeleteRequest_State := clean (quota "bucket" (types.Known 4)) |}
             fresh) (serving full_quota []) = [c] /\
    setter_of c = Some s /\
    quota_of c = Some q /\
    admin.Enabled q = Some false /\
    calls (QuotaResource.Create
             {| resource.CreateRequest_Plan := clean (quota "bucket" (types.Known 4)) |}
             fresh) (serving full_quota []) = [c1] /\
    setter_of c1 = Some s /\
    calls (QuotaResource.Update
             {| resource.UpdateRequest_Plan := clean (quota "bucket" (types.Known 4)) |}
             fresh) (serving full_quota []) = [c2] /\
    setter_of c2 = Some s.
Proof.
  exact (proj1 (proj2 Delete_disables_through_the_setter)
           (serving full_quota []) (clean (quota "bucket" (types.Known 4))) fresh eq_refl).
Defined.

(** C3, as the code has it. The not-found error a handler tests for is taken
    as absence, with no diagnostic, in every Read ([ErrNoSuchUser] for the
    user quota, generic quota and bucket link reads, [ErrNoSuchBucket] for the
    bucket quota read) and in Delete of the bucket link ([ErrNoSuchBucket]);
    every other error of these handlers adds an error diagnostic. Create and
    Update report every error of their call, not-found included. *)
Theorem not_found_is_absence_in_Read_and_unlink :
  (not_found_removes UserQuotaResource.Read ErrNoSuchUser "could not get user quota" /\
   not_found_removes QuotaResource.Read ErrNoSuchUser "could not get user quota" /\
   not_found_removes BucketQuotaResource.Read ErrNoSuchBucket "could not get bucket quota" /\
   not_found_removes BucketLinkResource.Read ErrNoSuchUser "could not get user's buckets") /\
  (forall (remote : admin.Remote)
          (req : resource.DeleteRequest BucketLinkResource.BucketLinkResourceModel)
          (resp : resource.DeleteResponse BucketLinkResource.BucketLinkResourceModel),
     let resp0 := entered resp (resource.DeleteRequest_State req) in
     let out := result (BucketLinkResource.Delete req resp) remote in
     diag.HasError (resource.Diagnostics resp0) = false ->
     exists c : admin.Call,
       calls (BucketLinkResource.Delete req resp) remote = [c] /\
       forall e : error,
         error_of remote c = Some e ->
         (errors.Is e ErrNoSuchBucket = true -> out = resp0) /\
         (errors.Is e ErrNoSuchBucket = false ->
            diag.HasError (resource.Diagnostics out) = true)) /\
  (reports_every_error
     (fun plan => UserQuotaResource.Create {| resource.CreateRequest_Plan := plan |})
     "could not create user quota" /\
   reports_every_error
     (fun plan => UserQuotaResource.Update {| resource.UpdateRequest_Plan := plan |})
     "could not modify user quota" /\
   reports_every_error
     (fun plan => QuotaResource.Create {| resource.CreateRequest_Plan := plan |})
     "could not create user quota" /\
   reports_every_error
     (fun plan => QuotaResource.Update {| resource.UpdateRequest_Plan := plan |})
     "could not modify user quota" /\
   reports_every_error
     (fun plan => BucketQuotaResource.Create {| resource.CreateRequest_Plan := plan |})
     "could not create bucket quota" /\
   reports_every_error
     (fun plan => BucketQuotaResource.Update {| resource.UpdateRequest_Plan := plan |})
     "could not modify bucket quota" /\
   reports_every_error
     (fun plan => BucketLinkResource.Create {| resource.CreateRequest_Plan := plan |})
     "could not create bucket link").
Proof.
  split; [| split].
  - repeat apply conj.
    + exact UserQuota_Read_not_found.
    + exact Quota_Read_not_found.
    + exact BucketQuota_Read_not_found.
    + exact BucketLink_Read_not_found.
  - intros remote req resp resp0 out Hok.
    destruct (BucketLink_Delete_run remote req resp Hok) as [Hc [_ Herr]].
    eexists. split; [exact Hc |].
    intros e He. destruct (Herr e He) as [Hnf Hother].
    split; [exact Hnf |].
    intros HIs. destruct (Hother HIs) as [_ Hds].
    subst out. rewrite Hds, HasError_app. apply orb_true_r.
  - repeat apply conj.
    + apply writes_reports, UserQuota_Create_writes.
    + apply writes_reports, UserQuota_Update_writes.
    + apply writes_reports, Quota_Create_writes.
    + apply writes_reports, Quota_Update_writes.
    + apply writes_reports, BucketQuota_Create_writes.
    + apply writes_reports, BucketQuota_Update_writes.
    + exact BucketLink_Create_reports.
Qed.

(** C3 at work: unlinking a bucket that is gone completes in silence. *)
Lemma not_found_is_absence_in_Read_and_unlink_witness :
  result (BucketLinkResource.Delete
            {| resource.DeleteRequest_State := clean (bucket_link types.Null) |}
            (holding (bucket_link types.Null)))
         (failing (ErrWrap "unlink failed" ErrNoSuchBucket))
  = holding (bucket_link types.Null).
Proof.
  destruct (proj1 (proj2 not_found_is_absence_in_Read_and_unlink)
              (failing (ErrWrap "unlink failed" ErrNoSuchBucket))
              {| resource.DeleteRequest_State := clean (bucket_link types.Null) |}
              (holding (bucket_link types.Null)) eq_refl) as [c [Hc Hspec]].
  injection Hc as <-.
  exact (proj1 (Hspec (ErrWrap "unlink failed" ErrNoSuchBucket) eq_refl) eq_refl).
Defined.

(** C3 as stated fails: creating a user quota for a user the gateway does
    not know ends with an error diagnostic. *)
Lemma Create_reports_not_found :
  errors.Is ErrNoSuchUser ErrNoSuchUser = true /\
  calls (UserQuotaResource.Create
           {| resource.CreateRequest_Plan := clean (user_quota (types.Known 4)) |} fresh)
        (failing ErrNoSuchUser)
  = [admin.CallSetUserQuota
       (UserQuotaResource.rgwQuotaFromSchemaQuota (user_quota (types.Known 4)))] /\
  result (UserQuotaResource.Create
            {| resource.CreateRequest_Plan := clean (user_quota (types.Known 4)) |} fresh)
         (failing ErrNoSuchUser)
  = resource.mkResponse None
      [diag.NewErrorDiagnostic "could not create user quota" "NoSuchUser"].
Proof. repeat split. Qed.

(** C4. Create and Update of every quota resource make one call, to a quota
    setter; when it returns an error, whichever it is, an error diagnostic is
    added and the state is the one the handler was given; the state is
    written when the call succeeded. *)
Theorem Create_Update_write_only_on_success :
  writes_only_on_success
    (fun plan => UserQuotaResource.Create {| resource.CreateRequest_Plan := plan |})
    "could not create user quota" /\
  writes_only_on_success
    (fun plan => UserQuotaResource.Update {| resource.UpdateRequest_Plan := plan |})
    "could not modify user quota" /\
  writes_only_on_success
    (fun plan => QuotaResource.Create {| resource.CreateRequest_Plan := plan |})
    "could not create user quota" /\
  writes_only_on_success
    (fun plan => QuotaResource.Update {| resource.UpdateRequest_Plan := plan |})
    "could not modify user quota" /\
  writes_only_on_success
    (fun plan => BucketQuotaResource.Create {| resource.CreateRequest_Plan := plan |})
    "could not create bucket quota" /\
  writes_only_on_success
    (fun plan => BucketQuotaResource.Update {| resource.UpdateRequest_Plan := plan |})
    "could not modify bucket quota".
Proof.
  repeat apply conj.
  - exact UserQuota_Create_writes.
  - exact UserQuota_Update_writes.
  - exact Quota_Create_writes.
  - exact Quota_Update_writes.
  - exact BucketQuota_Create_writes.
  - exact BucketQuota_Update_writes.
Qed.

(** C4 at work: an update of a user quota that the gateway refuses keeps the
    prior state, although the plan differs from it. *)
Lemma Create_Update_write_only_on_success_witness :
  let out :=
    result (UserQuotaResource.Update
              {| resource.UpdateRequest_Plan := clean (user_quota (types.Known 8)) |}
              (holding (user_quota (types.Known 4))))
           (failing (ErrReason "AccessDenied")) in
  resource.State out = Some (user_quota (types.Known 4)) /\
  diag.HasError (resource.Diagnostics out) = true /\
  resource.Diagnostics out
  = [diag.NewErrorDiagnostic "could not modify user quota" "AccessDenied"].
Proof.
  destruct (proj1 (proj2 Create_Update_write_only_on_success)
              (failing (ErrReason "AccessDenied"))
              (clean (user_quota (types.Known 8)))
              (holding (user_quota (types.Known 4))) eq_refl)
    as [c [s [Hc [_ [Herr _]]]]].
  injection Hc as <-.
  exact (Herr (ErrReason "AccessDenied") eq_refl).
Defined.

(** C5. The request the bucket quota and the generic quota resources build
    from a model: when [max_size_kb] is null or reads as 0 it carries
    [MaxSize] = -1 and no [MaxSizeKb]; when [max_size_kb] is non-null and
    non-zero it carries that value as [MaxSizeKb] and no [MaxSize];
    [MaxObjects] is present exactly when [max_objects] is non-null. *)
Theorem quota_request_sizes :
  (forall data : BucketQuotaResource.BucketQuotaResourceModel,
     size_request (BucketQuotaResource.MaxSizeKB data) (BucketQuotaResource.MaxObjects data)
                  (BucketQuotaResource.rgwBucketQuotaFromSchemaQuota data)) /\
  (forall data : QuotaResource.QuotaResourceModel,
     size_request (QuotaResource.MaxSizeKB data) (QuotaResource.MaxObjects data)
                  (QuotaResource.rgwQuotaFromSchemaQuota data)).
Proof.
  split.
  - exact BucketQuota_size_request.
  - exact Quota_size_request.
Qed.

(** C5 at work: 4 KB for a bucket, and no size at all for a generic quota. *)
Lemma quota_request_sizes_witness :
  (admin.MaxSizeKb (BucketQuotaResource.rgwBucketQuotaFromSchemaQuota
                      (bucket_quota (types.Known 4))) = Some 4 /\
   admin.MaxSize (BucketQuotaResource.rgwBucketQuotaFromSchemaQuota
                    (bucket_quota (types.Known 4))) = None) /\
  (admin.MaxSize (QuotaResource.rgwQuotaFromSchemaQuota (quota "user" types.Null))
   = Some (-1) /\
   admin.MaxSizeKb (QuotaResource.rgwQuotaFromSchemaQuota (quota "user" types.Null))
   = None) /\
  admin.MaxObjects (QuotaResource.rgwQuotaFromSchemaQuota (quota "user" types.Null))
  = Some (-1).
Proof.
  destruct quota_request_sizes as [Hb Hq].
  split; [| split].
  - apply (proj1 (proj2 (Hb (bucket_quota (types.Known 4))))).
    + reflexivity.
    + discriminate.
    + unfold GoInt.in_int64. simpl. lia.
  - apply (proj1 (Hq (quota "user" types.Null))). left. reflexivity.
  - apply (proj2 (proj2 (proj2 (Hq (quota "user" types.Null))))). reflexivity.
Defined.

(** C6, as the code has it. A successful Create or Update of the bucket quota
    and of the generic quota resource stores [max_size] = -1 when
    [max_size_kb] is null or reads as 0, and otherwise the product of
    [max_size_kb] and 1024 in 64-bit arithmetic, which is the product itself
    whenever -2^53 <= [max_size_kb] < 2^53. *)
Theorem stored_max_size_is_the_64bit_product :
  stores_max_size
    (fun plan => BucketQuotaResource.Create {| resource.CreateRequest_Plan := plan |})
    BucketQuotaResource.MaxSizeKB BucketQuotaResource.MaxSize /\
  stores_max_size
    (fun plan => BucketQuotaResource.Update {| resource.UpdateRequest_Plan := plan |})
    BucketQuotaResource.MaxSizeKB BucketQuotaResource.MaxSize /\
  stores_max_size
    (fun plan => QuotaResource.Create {| resource.CreateRequest_Plan := plan |})
    QuotaResource.MaxSizeKB QuotaResource.MaxSize /\
  stores_max_size
    (fun plan => QuotaResource.Update {| resource.UpdateRequest_Plan := plan |})
    QuotaResource.MaxSizeKB QuotaResource.MaxSize.
Proof.
  repeat apply conj.
  - exact BucketQuota_Create_stores.
  - exact BucketQuota_Update_stores.
  - exact Quota_Create_stores.
  - exact Quota_Update_stores.
Qed.

(** C6 at work: 4 KB are stored as 4096 bytes. *)
Lemma stored_max_size_is_the_64bit_product_witness :
  exists m : BucketQuotaResource.BucketQuotaResourceModel,
    resource.State
      (result (BucketQuotaResource.Create
                 {| resource.CreateRequest_Plan := clean (bucket_quota (types.Known 4)) |}
                 fresh) (serving full_quota []))
    = Some m /\
    BucketQuotaResource.MaxSize m = types.Known 4096.
Proof.
  destruct (proj1 stored_max_size_is_the_64bit_product
              (serving full_quota []) (clean (bucket_quota (types.Known 4))) fresh
              _ eq_refl eq_refl eq_refl) as [m [Hm [_ [_ Hexact]]]].
  exists m. split; [exact Hm |].
  apply Hexact.
  - discriminate.
  - simpl. lia.
Defined.

(** C6 as stated fails: with [max_size_kb] = 2^53 the product 2^63 does not
    fit, and -2^63 is stored. *)
Lemma stored_max_size_wraps :
  option_map BucketQuotaResource.MaxSize
    (resource.State
       (result (BucketQuotaResource.Create
                  {| resource.CreateRequest_Plan := clean (bucket_quota (types.Known (2 ^ 53))) |}
                  fresh) (serving full_quota [])))
  = Some (types.Known (- 2 ^ 63)) /\
  (2 ^ 53 =? 0) = false /\
  (- 2 ^ 63 =? 2 ^ 53 * 1024) = false.
Proof. repeat split. Qed.

(** C7. Delete of a bucket link makes exactly one admin call: an unlink of
    (bucket, uid) when [unlink_to_uid] is null, otherwise a link of the
    bucket to [unlink_to_uid]. When the call succeeds or fails with
    [ErrNoSuchBucket] the response is left as it was; any other error adds
    the diagnostic "could not delete bucket link". *)
Theorem BucketLink_Delete_one_call :
  forall (remote : admin.Remote)
         (req : resource.DeleteRequest BucketLinkResource.BucketLinkResourceModel)
         (resp : resource.DeleteResponse BucketLinkResource.BucketLinkResourceModel),
    let data := tfsdk.Get_data (resource.DeleteRequest_State req) in
    let bucket := types.ValueString (BucketLinkResource.Bucket data) in
    let resp0 := entered resp (resource.DeleteRequest_State req) in
    let out := result (BucketLinkResource.Delete req resp) remote in
    diag.HasError (resource.Diagnostics resp0) = false ->
    (types.IsNull (BucketLinkResource.UnlinkToUID data) = true ->
       calls (BucketLinkResource.Delete req resp) remote
       = [admin.CallUnlinkBucket
            (admin.mkBucketLinkInput bucket
               (types.ValueString (BucketLinkResource.UID data)))]) /\
    (types.IsNull (BucketLinkResource.UnlinkToUID data) = false ->
       calls (BucketLinkResource.Delete req resp) remote
       = [admin.CallLinkBucket
            (admin.mkBucketLinkInput bucket
               (types.ValueString (BucketLinkResource.UnlinkToUID data)))]) /\
    (forall c : admin.Call,
       calls (BucketLinkResource.Delete req resp) remote = [c] ->
       match error_of remote c with
       | None => out = resp0
       | Some e =>
           if errors.Is e ErrNoSuchBucket
           then out = resp0
           else resource.State out = resource.State resp /\
                resource.Diagnostics out
                = resource.Diagnostics resp0
                    ++ [diag.NewErrorDiagnostic "could not delete bucket link"
                          (errors.Error e)]
       end).
Proof.
  intros remote req resp data bucket resp0 out Hok.
  destruct (BucketLink_Delete_run remote req resp Hok) as [Hc [Hnone Hsome]].
  fold data resp0 out in Hc, Hnone, Hsome.
  split; [| split].
  - intros Hnull. rewrite Hc. unfold unlink_call. fold data. now rewrite Hnull.
  - intros Hnull. rewrite Hc. unfold unlink_call. fold data. now rewrite Hnull.
  - intros c Hcalls. rewrite Hc in Hcalls. injection Hcalls as <-.
    destruct (error_of remote (unlink_call data)) as [e |] eqn:E.
    + destruct (Hsome e eq_refl) as [Hnf Hother].
      destruct (errors.Is e ErrNoSuchBucket); auto.
    + auto.
Qed.

(** C7 at work: with [unlink_to_uid] set, the bucket is linked to that user;
    an error other than [ErrNoSuchBucket] is reported. *)
Lemma BucketLink_Delete_one_call_witness :
  let req := {| resource.DeleteRequest_State := clean (bucket_link (types.Known "bob")) |} in
  let resp := holding (bucket_link (types.Known "bob")) in
  calls (BucketLinkResource.Delete req resp) (failing ErrNoSuchUser)
  = [admin.CallLinkBucket (admin.mkBucketLinkInput "photos" "bob")] /\
  resource.Diagnostics (result (BucketLinkResource.Delete req resp) (failing ErrNoSuchUser))
  = [diag.NewErrorDiagnostic "could not delete bucket link" "NoSuchUser"].
Proof.
  intros req resp.
  destruct (BucketLink_Delete_one_call (failing ErrNoSuchUser) req resp eq_refl)
    as [_ [Hlink Herr]].
  split.
  - exact (Hlink eq_refl).
  - exact (proj2 (Herr _ (Hlink eq_refl))).
Defined.

(** C8. Read of a bucket link, when the listing of the user's buckets
    succeeds: a stored bucket name that is not in the list removes the
    resource from state; one that is in the list has the model read from the
    prior state saved again, unchanged, with no diagnostic. *)
Theorem BucketLink_Read_follows_the_listing :
  forall (remote : admin.Remote)
         (req : resource.ReadRequest BucketLinkResource.BucketLinkResourceModel)
         (resp : resource.ReadResponse BucketLinkResource.BucketLinkResourceModel)
         (buckets : list string),
    let data := tfsdk.Get_data (resource.ReadRequest_State req) in
    let resp0 := entered resp (resource.ReadRequest_State req) in
    let out := result (BucketLinkResource.Read req resp) remote in
    diag.HasError (resource.Diagnostics resp0) = false ->
    admin.onListUsersBuckets remote (types.ValueString (BucketLinkResource.UID data))
    = (buckets, None) ->
    calls (BucketLinkResource.Read req resp) remote
    = [admin.CallListUsersBuckets (types.ValueString (BucketLinkResource.UID data))] /\
    resource.Diagnostics out = resource.Diagnostics resp0 /\
    (~ In (types.ValueString (BucketLinkResource.Bucket data)) buckets ->
       resource.State out = None) /\
    (In (types.ValueString (BucketLinkResource.Bucket data)) buckets ->
       resource.State out = Some data).
Proof.
  intros remote req resp buckets data resp0 out Hok Hlist.
  subst data resp0 out. handler_run. rewrite Hok, Hlist.
  destruct (BucketLinkResource.findString buckets _) eqn:F; cbn [negb fst snd].
  - apply findString_In in F.
    repeat split; try reflexivity. intros Hnot. contradiction.
  - repeat split; try reflexivity.
    intros Hin. apply findString_In in Hin. congruence.
Qed.

(** C8 at work: the bucket left the user's list, and the link leaves the
    state; while it is listed, the state stays. *)
Lemma BucketLink_Read_follows_the_listing_witness :
  let req := {| resource.ReadRequest_State := clean (bucket_link types.Null) |} in
  let resp := holding (bucket_link types.Null) in
  resource.State (result (BucketLinkResource.Read req resp)
                         (serving bare_quota ["music"; "videos"])) = None /\
  resource.State (result (BucketLinkResource.Read req resp)
                         (serving bare_quota ["music"; "photos"]))
  = Some (bucket_link types.Null).
Proof.
  intros req resp. split.
  - apply (BucketLink_Read_follows_the_listing
             (serving bare_quota ["music"; "videos"]) req resp ["music"; "videos"]
             eq_refl eq_refl).
    simpl. intros [H | [H | []]]; discriminate H.
  - apply (BucketLink_Read_follows_the_listing
             (serving bare_quota ["music"; "photos"]) req resp ["music"; "photos"]
             eq_refl eq_refl).
    simpl. right. left. reflexivity.
Defined.

(** C9. In Delete of each quota resource the second error check, the one
    that would tolerate not-found and report "could not delete ...", is never
    taken: every error of the setter, not-found included, has already been
    reported as "could not modify ...", and no "could not delete ..."
    diagnostic is ever produced. *)
Theorem quota_Delete_second_check_is_dead :
  second_check_dead UserQuotaResource.Delete
    "could not modify user quota" "could not delete user quota" /\
  second_check_dead QuotaResource.Delete
    "could not modify user quota" "could not delete user quota" /\
  second_check_dead BucketQuotaResource.Delete
    "could not modify bucket quota" "could not delete bucket quota".
Proof.
  repeat apply conj.
  - exact UserQuota_second_check_dead.
  - exact Quota_second_check_dead.
  - exact BucketQuota_second_check_dead.
Qed.

(** C9 at work: deleting the quota of a user that is gone reports
    "could not modify user quota". *)
Lemma quota_Delete_second_check_is_dead_witness :
  errors.Is ErrNoSuchUser ErrNoSuchUser = true /\
  resource.Diagnostics
    (result (UserQuotaResource.Delete
               {| resource.DeleteRequest_State := clean (user_quota (types.Known 4)) |}
               (holding (user_quota (types.Known 4))))
            (failing ErrNoSuchUser))
  = [diag.NewErrorDiagnostic "could not modify user quota" "NoSuchUser"].
Proof.
  split; [reflexivity |].
  destruct (proj1 (proj1 quota_Delete_second_check_is_dead
                     (failing ErrNoSuchUser)
                     {| resource.DeleteRequest_State := clean (user_quota (types.Known 4)) |}
                     (holding (user_quota (types.Known 4)))) eq_refl)
    as [c [Hc [Herr _]]].
  injection Hc as <-.
  exact (Herr ErrNoSuchUser eq_refl).
Defined.

(** C10. Read of each quota resource never changes the identifier fields of
    the state ([uid], and [type] or [bucket] where present); a successful
    Read stores [enabled], [max_size], [max_size_kb] and [max_objects] from
    the answer where the answer sets them and keeps the prior value where it
    omits them. Read of the user quota, when the answer names another user,
    adds the diagnostic "api returned wrong user" and writes nothing. *)
Theorem quota_Read_frame :
  read_frame UserQuotaResource.Read
    (fun m => [UserQuotaResource.UID m])
    UserQuotaResource.Enabled UserQuotaResource.MaxSize
    UserQuotaResource.MaxSizeKB UserQuotaResource.MaxObjects
    same_user /\
  read_frame QuotaResource.Read
    (fun m => [QuotaResource.UID m; QuotaResource.Type_ m])
    QuotaResource.Enabled QuotaResource.MaxSize
    QuotaResource.MaxSizeKB QuotaResource.MaxObjects
    (fun _ _ => true) /\
  read_frame BucketQuotaResource.Read
    (fun m => [BucketQuotaResource.Bucket m; BucketQuotaResource.UID m])
    BucketQuotaResource.Enabled BucketQuotaResource.MaxSize
    BucketQuotaResource.MaxSizeKB BucketQuotaResource.MaxObjects
    (fun _ _ => true) /\
  (forall (remote : admin.Remote)
          (req : resource.ReadRequest UserQuotaResource.UserQuotaResourceModel)
          (resp : resource.ReadResponse UserQuotaResource.UserQuotaResourceModel)
          (c : admin.Call) (q : admin.QuotaSpec),
     let data := tfsdk.Get_data (resource.ReadRequest_State req) in
     let resp0 := entered resp (resource.ReadRequest_State req) in
     let out := result (UserQuotaResource.Read req resp) remote in
     diag.HasError (resource.Diagnostics resp0) = false ->
     calls (UserQuotaResource.Read req resp) remote = [c] ->
     error_of remote c = None ->
     quota_answer remote c = Some q ->
     same_user data q = false ->
     resource.State out = resource.State resp /\
     resource.Diagnostics out
     = resource.Diagnostics resp0
         ++ [diag.NewErrorDiagnostic "api returned wrong user"
               (UserQuotaResource.wrong_user_detail
                  (types.ValueString (UserQuotaResource.UID data)) (admin.UID q))]).
Proof.
  repeat apply conj.
  - exact UserQuota_read_frame.
  - exact Quota_read_frame.
  - exact BucketQuota_read_frame.
  - intros remote req resp c q data resp0 out Hok Hc Herr Hq Hdiff.
    subst data resp0 out. unfold same_user in Hdiff.
    handler_run. rewrite Hok in *.
    destruct (admin.onGetUserQuota remote _) as [ans [e |]] eqn:A.
    + destruct (errors.Is e ErrNoSuchUser); cbn [snd] in Hc; injection Hc as <-;
        cbn [error_of] in Herr; rewrite A in Herr; discriminate Herr.
    + destruct (negb _) eqn:B in Hc; cbn [snd] in Hc; injection Hc as <-;
        cbn [quota_answer] in Hq; rewrite A in Hq; injection Hq as <-;
        rewrite Hdiff; cbn [negb fst resource.State resource.Diagnostics
                             resource.Diagnostics_AddError];
        (split; [reflexivity | now apply AddError_fresh]).
Qed.

(** C10 at work: an answer that sets [max_size] and [max_size_kb] and omits
    [enabled] and [max_objects], read into a bucket quota. *)
Lemma quota_Read_frame_witness :
  exists m : BucketQuotaResource.BucketQuotaResourceModel,
    resource.State
      (result (BucketQuotaResource.Read
                 {| resource.ReadRequest_State := clean (bucket_quota (types.Known 4)) |}
                 (holding (bucket_quota (types.Known 4))))
              (serving (admin.mkQuotaSpec "" "" "" None false (Some 8192) (Some 8) None) []))
    = Some m /\
    [BucketQuotaResource.Bucket m; BucketQuotaResource.UID m]
    = [types.Known "photos"; types.Known "alice"] /\
    BucketQuotaResource.Enabled m = types.Known true /\
    BucketQuotaResource.MaxSize m = types.Known 8192 /\
    BucketQuotaResource.MaxSizeKB m = types.Known 8 /\
    BucketQuotaResource.MaxObjects m = types.Known (-1).
Proof.
  exact (proj2 (proj1 (proj2 (proj2 quota_Read_frame))
                  (serving (admin.mkQuotaSpec "" "" "" None false (Some 8192) (Some 8) None) [])
                  {| resource.ReadRequest_State := clean (bucket_quota (types.Known 4)) |}
                  (holding (bucket_quota (types.Known 4))))
           eq_refl _ _ eq_refl eq_refl eq_refl eq_refl).
Defined.

(* ===================================================================== *)
(** ** Further properties of the handlers *)

Lemma Append_keeps (new ds : diag.Diagnostics) (d : diag.Diagnostic) :
  In d ds \/ In d new -> In d (diag.Append ds new).
Proof.
  revert ds. induction new as [| x rest IH]; intros ds [H | H]; simpl.
  - assumption.
  - contradiction.
  - destruct (diag.Contains ds x); apply IH; left; [assumption |].
    apply in_or_app. now left.
  - destruct (diag.Contains ds x) eqn:C; apply IH.
    + destruct H as [-> | H]; [left; now apply Contains_In | now right].
    + destruct H as [-> | H]; [left; apply in_or_app; right; now left | now right].
Qed.

Lemma AddError_keeps (ds : diag.Diagnostics) (summary detail : string) (d : diag.Diagnostic) :
  In d ds -> In d (diag.AddError ds summary detail).
Proof. intros H. apply Append_keeps. now left. Qed.

(** The handlers that pick their request by an attribute: split on it. *)
Ltac split_call :=
  split_type;
  try match goal with
      | |- context [types.IsNull (BucketLinkResource.UnlinkToUID ?d)] =>
          destruct (types.IsNull (BucketLinkResource.UnlinkToUID d))
      end.

Ltac one_call :=
  intros remote req resp; split;
  [ handler_run; split_call; split_branches; cbn [snd app length]; lia
  | intros Herr; handler_run; now rewrite Herr ].

Ltac kept_diagnostics :=
  intros remote req resp d Hd; apply (Append_keeps _ _ d) in Hd;
  handler_run; split_call; split_branches;
  cbn [fst resource.Diagnostics resource.Diagnostics_AddError resource.State_RemoveResource
       resource.Diagnostics_Append diag.Append];
  first [assumption | now apply AddError_keeps].

(** X1. Every handler of the four resources (Create, Read, Update, Delete)
    sends at most one request to the gateway, and none when the response
    holds an error once the plan or state is read: it then returns that
    response as it is. *)
Theorem handlers_send_at_most_one_request :
  (at_most_one_call resource.CreateRequest_Plan UserQuotaResource.Create /\
   at_most_one_call resource.ReadRequest_State UserQuotaResource.Read /\
   at_most_one_call resource.UpdateRequest_Plan UserQuotaResource.Update /\
   at_most_one_call resource.DeleteRequest_State UserQuotaResource.Delete) /\
  (at_most_one_call resource.CreateRequest_Plan QuotaResource.Create /\
   at_most_one_call resource.ReadRequest_State QuotaResource.Read /\
   at_most_one_call resource.UpdateRequest_Plan QuotaResource.Update /\
   at_most_one_call resource.DeleteRequest_State QuotaResource.Delete) /\
  (at_most_one_call resource.CreateRequest_Plan BucketQuotaResource.Create /\
   at_most_one_call resource.ReadRequest_State BucketQuotaResource.Read /\
   at_most_one_call resource.UpdateRequest_Plan BucketQuotaResource.Update /\
   at_most_one_call resource.DeleteRequest_State BucketQuotaResource.Delete) /\
  (at_most_one_call resource.CreateRequest_Plan BucketLinkResource.Create /\
   at_most_one_call resource.ReadRequest_State BucketLinkResource.Read /\
   at_most_one_call resource.UpdateRequest_Plan BucketLinkResource.Update /\
   at_most_one_call resource.DeleteRequest_State BucketLinkResource.Delete).
Proof. repeat apply conj; one_call. Qed.

(** X1 at work: a prior state that does not decode stops the Read before any
    request. *)
Lemma handlers_send_at_most_one_request_witness :
  run (BucketQuotaResource.Read
         {| resource.ReadRequest_State :=
              tfsdk.mkData [diag.NewErrorDiagnostic "Value Conversion Error" "max_size"]
                           (bucket_quota (types.Known 4)) |}
         (holding (bucket_quota (types.Known 4))))
      (serving full_quota [])
  = (resource.mkResponse (Some (bucket_quota (types.Known 4)))
       [diag.NewErrorDiagnostic "Value Conversion Error" "max_size"],
     []).
Proof.
  exact (proj2 (proj1 (proj2 (proj1 (proj2 (proj2 handlers_send_at_most_one_request))))
                  (serving full_quota [])
                  {| resource.ReadRequest_State :=
                       tfsdk.mkData
                         [diag.NewErrorDiagnostic "Value Conversion Error" "max_size"]
                         (bucket_quota (types.Known 4)) |}
                  (holding (bucket_quota (types.Known 4))))
           eq_refl).
Defined.

(** X2. No handler drops a diagnostic: whatever the response held on entry,
    and whatever reading the plan or state reported, is still in the
    response the handler leaves. *)
Theorem handlers_keep_diagnostics :
  (keeps_diagnostics resource.CreateRequest_Plan UserQuotaResource.Create /\
   keeps_diagnostics resource.ReadRequest_State UserQuotaResource.Read /\
   keeps_diagnostics resource.UpdateRequest_Plan UserQuotaResource.Update /\
   keeps_diagnostics resource.DeleteRequest_State UserQuotaResource.Delete) /\
  (keeps_diagnostics resource.CreateRequest_Plan QuotaResource.Create /\
   keeps_diagnostics resource.ReadRequest_State QuotaResource.Read /\
   keeps_diagnostics resource.UpdateRequest_Plan QuotaResource.Update /\
   keeps_diagnostics resource.DeleteRequest_State QuotaResource.Delete) /\
  (keeps_diagnostics resource.CreateRequest_Plan BucketQuotaResource.Create /\
   keeps_diagnostics resource.ReadRequest_State BucketQuotaResource.Read /\
   keeps_diagnostics resource.UpdateRequest_Plan BucketQuotaResource.Update /\
   keeps_diagnostics resource.DeleteRequest_State BucketQuotaResource.Delete) /\
  (keeps_diagnostics resource.CreateRequest_Plan BucketLinkResource.Create /\
   keeps_diagnostics resource.ReadRequest_State BucketLinkResource.Read /\
   keeps_diagnostics resource.UpdateRequest_Plan BucketLinkResource.Update /\
   keeps_diagnostics resource.DeleteRequest_State BucketLinkResource.Delete).
Proof. repeat apply conj; kept_diagnostics. Qed.

(** X2 at work: a warning handed to a Create that fails is still there. *)
Lemma handlers_keep_diagnostics_witness :
  In (diag.mkDiagnostic diag.SeverityWarning "Deprecated" "use rgw_quota")
     (resource.Diagnostics
        (result (UserQuotaResource.Create
                   {| resource.CreateRequest_Plan := clean (user_quota (types.Known 4)) |}
                   (resource.mkResponse None
                      [diag.mkDiagnostic diag.SeverityWarning "Deprecated" "use rgw_quota"]))
                (failing ErrNoSuchUser))).
Proof.
  apply (proj1 (proj1 handlers_keep_diagnostics)).
  left. left. reflexivity.
Defined.

Ltac state_left :=
  intros remote req resp; handler_run; split_call; split_branches; reflexivity.

(** X3. No Delete touches the state of its response, whether its call
    succeeds or fails: removing the resource is left to the framework. *)
Theorem Delete_leaves_the_state :
  leaves_state UserQuotaResource.Delete /\
  leaves_state QuotaResource.Delete /\
  leaves_state BucketQuotaResource.Delete /\
  leaves_state BucketLinkResource.Delete.
Proof. repeat apply conj; state_left. Qed.

(** *** What Delete asks of the gateway *)

(** X4. Delete of the user quota sends the request Create would send for the
    same model, but for [Enabled], which is false: the limits of the model
    are sent again. *)
Theorem UserQuota_Delete_resends_the_limits :
  forall (remote : admin.Remote)
         (req : resource.DeleteRequest UserQuotaResource.UserQuotaResourceModel)
         (resp : resource.DeleteResponse UserQuotaResource.UserQuotaResourceModel),
    let planned :=
      UserQuotaResource.rgwQuotaFromSchemaQuota
        (tfsdk.Get_data (resource.DeleteRequest_State req)) in
    diag.HasError (resource.Diagnostics (entered resp (resource.DeleteRequest_State req))) = false ->
    exists q : admin.QuotaSpec,
      calls (UserQuotaResource.Delete req resp) remote = [admin.CallSetUserQuota q] /\
      admin.Enabled q = Some false /\
      admin.UID q = admin.UID planned /\
      admin.QuotaType q = "user" /\
      admin.CheckOnRaw q = admin.CheckOnRaw planned /\
      admin.MaxSize q = admin.MaxSize planned /\
      admin.MaxSizeKb q = admin.MaxSizeKb planned /\
      admin.MaxObjects q = admin.MaxObjects planned.
Proof.
  intros remote req resp planned Hok. subst planned.
  handler_run. rewrite Hok.
  eexists. split; [split_branches; reflexivity |].
  unfold UserQuotaResource.rgwQuotaFromSchemaQuota.
  destruct (types.IsNull (UserQuotaResource.MaxSize _)),
           (types.IsNull (UserQuotaResource.MaxSizeKB _)),
           (types.IsNull (UserQuotaResource.MaxObjects _));
    repeat split.
Qed.

(** X4 at work: the 4 KB and the 10 objects of the model go out again. *)
Lemma UserQuota_Delete_resends_the_limits_witness :
  exists q : admin.QuotaSpec,
    calls (UserQuotaResource.Delete
             {| resource.DeleteRequest_State := clean (user_quota (types.Known 4)) |}
             (holding (user_quota (types.Known 4))))
          (serving full_quota [])
    = [admin.CallSetUserQuota q] /\
    admin.Enabled q = Some false /\
    admin.UID q = "alice" /\
    admin.QuotaType q = "user" /\
    admin.CheckOnRaw q = false /\
    admin.MaxSize q = None /\
    admin.MaxSizeKb q = Some 4 /\
    admin.MaxObjects q = Some 10.
Proof.
  exact (UserQuota_Delete_resends_the_limits
           (serving full_quota [])
           {| resource.DeleteRequest_State := clean (user_quota (types.Known 4)) |}
           (holding (user_quota (types.Known 4))) eq_refl).
Defined.

Ltac reset_request :=
  intros remote req resp Hok;
  handler_run; rewrite Hok; split_call;
  do 2 eexists; (split; [split_branches; reflexivity |]);
  unfold BucketQuotaResource.rgwBucketQuotaFromSchemaQuota,
         QuotaResource.rgwQuotaFromSchemaQuota;
  cbv zeta; split_branches; repeat split.

(** X5. Delete of the bucket quota and of the generic quota does more than
    disable: whatever the model holds, the request carries [MaxSize] = -1, no
    [MaxSizeKb] and [MaxObjects] = -1, for the bucket and user (or user and
    type) of the model. *)
Theorem quota_Delete_resets_the_limits :
  (forall (remote : admin.Remote)
          (req : resource.DeleteRequest BucketQuotaResource.BucketQuotaResourceModel)
          (resp : resource.DeleteResponse BucketQuotaResource.BucketQuotaResourceModel),
     diag.HasError (resource.Diagnostics (entered resp (resource.DeleteRequest_State req))) = false ->
     exists (c : admin.Call) (q : admin.QuotaSpec),
       calls (BucketQuotaResource.Delete req resp) remote = [c] /\
       quota_of c = Some q /\
       admin.Enabled q = Some false /\
       admin.MaxSize q = Some (-1) /\
       admin.MaxSizeKb q = None /\
       admin.MaxObjects q = Some (-1) /\
       admin.Bucket q
       = types.ValueString
           (BucketQuotaResource.Bucket (tfsdk.Get_data (resource.DeleteRequest_State req))) /\
       admin.UID q
       = types.ValueString
           (BucketQuotaResource.UID (tfsdk.Get_data (resource.DeleteRequest_State req)))) /\
  (forall (remote : admin.Remote)
          (req : resource.DeleteRequest QuotaResource.QuotaResourceModel)
          (resp : resource.DeleteResponse QuotaResource.QuotaResourceModel),
     diag.HasError (resource.Diagnostics (entered resp (resource.DeleteRequest_State req))) = false ->
     exists (c : admin.Call) (q : admin.QuotaSpec),
       calls (QuotaResource.Delete req resp) remote = [c] /\
       quota_of c = Some q /\
       admin.Enabled q = Some false /\
       admin.MaxSize q = Some (-1) /\
       admin.MaxSizeKb q = None /\
       admin.MaxObjects q = Some (-1) /\
       admin.UID q
       = types.ValueString
           (QuotaResource.UID (tfsdk.Get_data (resource.DeleteRequest_State req))) /\
       admin.QuotaType q
       = types.ValueString
           (QuotaResource.Type_ (tfsdk.Get_data (resource.DeleteRequest_State req)))).
Proof. split; reset_request. Qed.

(** X5 at work: a bucket quota of 4 KB is deleted with unlimited size and
    objects. *)
Lemma quota_Delete_resets_the_limits_witness :
  exists (c : admin.Call) (q : admin.QuotaSpec),
    calls (BucketQuotaResource.Delete
             {| resource.DeleteRequest_State := clean (bucket_quota (types.Known 4)) |}
             (holding (bucket_quota (types.Known 4))))
          (serving full_quota [])
    = [c] /\
    quota_of c = Some q /\
    admin.Enabled q = Some false /\
    admin.MaxSize q = Some (-1) /\
    admin.MaxSizeKb q = None /\
    admin.MaxObjects q = Some (-1) /\
    admin.Bucket q = "photos" /\
    admin.UID q = "alice".
Proof.
  exact (proj1 quota_Delete_resets_the_limits
           (serving full_quota [])
           {| resource.DeleteRequest_State := clean (bucket_quota (types.Known 4)) |}
           (holding (bucket_quota (types.Known 4))) eq_refl).
Defined.

(** *** The endpoints of the generic quota resource *)

(** X6. The generic quota resource picks its endpoints by one test, the same
    in its four handlers: the user quota endpoints when [type] reads as
    "user", the bucket quota endpoints for any other value, null and unknown
    included. *)
Theorem Quota_endpoints_follow_the_type :
  forall (remote : admin.Remote) (src : tfsdk.Data QuotaResource.QuotaResourceModel)
         (resp : resource.Response QuotaResource.QuotaResourceModel),
    let user :=
      String.eqb (types.ValueString (QuotaResource.Type_ (tfsdk.Get_data src))) "user" in
    diag.HasError (resource.Diagnostics (entered resp src)) = false ->
    exists q1 q2 q3 q4 : admin.QuotaSpec,
      calls (QuotaResource.Create {| resource.CreateRequest_Plan := src |} resp) remote
      = [if user then admin.CallSetUserQuota q1 else admin.CallSetBucketQuota q1] /\
      calls (QuotaResource.Read {| resource.ReadRequest_State := src |} resp) remote
      = [if user then admin.CallGetUserQuota q2 else admin.CallGetBucketQuota q2] /\
      calls (QuotaResource.Update {| resource.UpdateRequest_Plan := src |} resp) remote
      = [if user then admin.CallSetUserQuota q3 else admin.CallSetBucketQuota q3] /\
      calls (QuotaResource.Delete {| resource.DeleteRequest_State := src |} resp) remote
      = [if user then admin.CallSetUserQuota q4 else admin.CallSetBucketQuota q4].
Proof.
  intros remote src resp user Hok. subst user.
  handler_run. rewrite Hok.
  destruct (String.eqb _ "user").
  all: do 4 eexists; repeat split; split_branches; reflexivity.
Qed.

(** X6 at work: a type spelled "User" goes to the bucket quota endpoints. *)
Lemma Quota_endpoints_follow_the_type_witness :
  exists q1 q2 q3 q4 : admin.QuotaSpec,
    calls (QuotaResource.Create
             {| resource.CreateRequest_Plan := clean (quota "User" (types.Known 4)) |} fresh)
          (serving full_quota [])
    = [admin.CallSetBucketQuota q1] /\
    calls (QuotaResource.Read
             {| resource.ReadRequest_State := clean (quota "User" (types.Known 4)) |} fresh)
          (serving full_quota [])
    = [admin.CallGetBucketQuota q2] /\
    calls (QuotaResource.Update
             {| resource.UpdateRequest_Plan := clean (quota "User" (types.Known 4)) |} fresh)
          (serving full_quota [])
    = [admin.CallSetBucketQuota q3] /\
    calls (QuotaResource.Delete
             {| resource.DeleteRequest_State := clean (quota "User" (types.Known 4)) |} fresh)
          (serving full_quota [])
    = [admin.CallSetBucketQuota q4].
Proof.
  exact (Quota_endpoints_follow_the_type
           (serving full_quota []) (clean (quota "User" (types.Known 4))) fresh eq_refl).
Defined.

(** *** The request of the user quota resource *)

(** X7. The request of the user quota resource forwards each of [max_size],
    [max_size_kb] and [max_objects] exactly when the attribute is not null,
    with its value: a [max_size_kb] of 0 is sent as 0, and [MaxSize] and
    [MaxSizeKb] may go together. *)
Theorem UserQuota_request_forwards_the_limits :
  forall data : UserQuotaResource.UserQuotaResourceModel,
    let q := UserQuotaResource.rgwQuotaFromSchemaQuota data in
    let kb := UserQuotaResource.MaxSizeKB data in
    GoInt.in_int64 (types.ValueInt64 kb) ->
    admin.QuotaType q = "user" /\
    admin.Enabled q = Some (types.ValueBool (UserQuotaResource.Enabled data)) /\
    admin.MaxSize q
    = (if types.IsNull (UserQuotaResource.MaxSize data) then None
       else Some (types.ValueInt64 (UserQuotaResource.MaxSize data))) /\
    admin.MaxSizeKb q
    = (if types.IsNull kb then None else Some (types.ValueInt64 kb)) /\
    admin.MaxObjects q
    = (if types.IsNull (UserQuotaResource.MaxObjects data) then None
       else Some (types.ValueInt64 (UserQuotaResource.MaxObjects data))).
Proof.
  intros data q kb Hfit. subst q kb.
  unfold UserQuotaResource.rgwQuotaFromSchemaQuota.
  rewrite (int_of_int64_small _ Hfit).
  destruct (types.IsNull (UserQuotaResource.MaxSize data)),
           (types.IsNull (UserQuotaResource.MaxSizeKB data)),
           (types.IsNull (UserQuotaResource.MaxObjects data));
    repeat split.
Qed.

(** X7 at work: a user quota of 0 KB is sent as 0 KB. *)
Lemma UserQuota_request_forwards_the_limits_witness :
  admin.QuotaType (UserQuotaResource.rgwQuotaFromSchemaQuota (user_quota (types.Known 0)))
  = "user" /\
  admin.Enabled (UserQuotaResource.rgwQuotaFromSchemaQuota (user_quota (types.Known 0)))
  = Some true /\
  admin.MaxSize (UserQuotaResource.rgwQuotaFromSchemaQuota (user_quota (types.Known 0)))
  = None /\
  admin.MaxSizeKb (UserQuotaResource.rgwQuotaFromSchemaQuota (user_quota (types.Known 0)))
  = Some 0 /\
  admin.MaxObjects (UserQuotaResource.rgwQuotaFromSchemaQuota (user_quota (types.Known 0)))
  = Some 10.
Proof.
  apply (UserQuota_request_forwards_the_limits (user_quota (types.Known 0))).
  unfold GoInt.in_int64. simpl. lia.
Defined.

(** *** The state a successful Create or Update stores *)

Ltac stored_plan :=
  intros remote req resp c Hok Hc Herr;
  handler_run; rewrite Hok in *; split_call;
  match type of Hc with
  | context [match ?a with _ => _ end] =>
      let A := fresh "A" in
      destruct a eqn:A; cbn [snd fst] in Hc; injection Hc as <-;
      cbn [error_of] in Herr; rewrite A in Herr; try discriminate Herr
  end;
  cbn [fst resource.State resource.Diagnostics_Append];
  eexists; (split; [reflexivity |]);
  split_branches; reflexivity.

(** X8. What a successful Create or Update stores: the planned model as it
    is for the user quota and for the bucket link Create, and for the generic
    and the bucket quota the planned model in every attribute but
    [max_size]. *)
Theorem Create_Update_store_the_plan :
  (stores_as_planned resource.CreateRequest_Plan UserQuotaResource.Create (fun m => m) /\
   stores_as_planned resource.UpdateRequest_Plan UserQuotaResource.Update (fun m => m)) /\
  (stores_as_planned resource.CreateRequest_Plan QuotaResource.Create
     (fun m => (QuotaResource.UID m, QuotaResource.Type_ m, QuotaResource.Enabled m,
                QuotaResource.CheckOnRaw m, QuotaResource.MaxSizeKB m,
                QuotaResource.MaxObjects m)) /\
   stores_as_planned resource.UpdateRequest_Plan QuotaResource.Update
     (fun m => (QuotaResource.UID m, QuotaResource.Type_ m, QuotaResource.Enabled m,
                QuotaResource.CheckOnRaw m, QuotaResource.MaxSizeKB m,
                QuotaResource.MaxObjects m))) /\
  (stores_as_planned resource.CreateRequest_Plan BucketQuotaResource.Create
     (fun m => (BucketQuotaResource.Bucket m, BucketQuotaResource.UID m,
                BucketQuotaResource.Enabled m, BucketQuotaResource.CheckOnRaw m,
                BucketQuotaResource.MaxSizeKB m, BucketQuotaResource.MaxObjects m)) /\
   stores_as_planned resource.UpdateRequest_Plan BucketQuotaResource.Update
     (fun m => (BucketQuotaResource.Bucket m, BucketQuotaResource.UID m,
                BucketQuotaResource.Enabled m, BucketQuotaResource.CheckOnRaw m,
                BucketQuotaResource.MaxSizeKB m, BucketQuotaResource.MaxObjects m))) /\
  stores_as_planned resource.CreateRequest_Plan BucketLinkResource.Create (fun m => m).
Proof. repeat apply conj; stored_plan. Qed.

(** X8 at work: an update of a user quota stores the plan, its null
    [max_size] included. *)
Lemma Create_Update_store_the_plan_witness :
  exists m : UserQuotaResource.UserQuotaResourceModel,
    resource.State
      (result (UserQuotaResource.Update
                 {| resource.UpdateRequest_Plan := clean (user_quota (types.Known 8)) |}
                 (holding (user_quota (types.Known 4))))
              (serving full_quota []))
    = Some m /\
    m = user_quota (types.Known 8).
Proof.
  exact (proj2 (proj1 Create_Update_store_the_plan)
           (serving full_quota [])
           {| resource.UpdateRequest_Plan := clean (user_quota (types.Known 8)) |}
           (holding (user_quota (types.Known 4))) _ eq_refl eq_refl eq_refl).
Defined.

(** *** Create and Update of the bucket link *)

(** X9. Create of a bucket link sends one LinkBucket request for (bucket,
    uid), [unlink_to_uid] playing no part; on success the plan is stored and
    nothing is reported, on an error the state stays as given and the error is
    reported as "could not create bucket link". *)
Theorem BucketLink_Create_links_to_uid :
  forall (remote : admin.Remote)
         (req : resource.CreateRequest BucketLinkResource.BucketLinkResourceModel)
         (resp : resource.CreateResponse BucketLinkResource.BucketLinkResourceModel),
    let data := tfsdk.Get_data (resource.CreateRequest_Plan req) in
    let link :=
      admin.mkBucketLinkInput (types.ValueString (BucketLinkResource.Bucket data))
                              (types.ValueString (BucketLinkResource.UID data)) in
    let resp0 := entered resp (resource.CreateRequest_Plan req) in
    let out := result (BucketLinkResource.Create req resp) remote in
    diag.HasError (resource.Diagnostics resp0) = false ->
    calls (BucketLinkResource.Create req resp) remote = [admin.CallLinkBucket link] /\
    match admin.onLinkBucket remote link with
    | None => out = resource.mkResponse (Some data) (resource.Diagnostics resp0)
    | Some e =>
        out = resource.mkResponse (resource.State resp)
                (resource.Diagnostics resp0
                 ++ [diag.NewErrorDiagnostic "could not create bucket link" (errors.Error e)])
    end.
Proof.
  intros remote req resp data link resp0 out Hok. subst data link resp0 out.
  handler_run. rewrite Hok.
  destruct (admin.onLinkBucket remote _) as [e |]; cbn [fst snd].
  - split; [reflexivity |].
    unfold resource.Diagnostics_AddError. cbn [resource.State resource.Diagnostics].
    now rewrite AddError_fresh.
  - split; reflexivity.
Qed.

(** X9 at work: the link goes to "alice", not to the "bob" of
    [unlink_to_uid]. *)
Lemma BucketLink_Create_links_to_uid_witness :
  calls (BucketLinkResource.Create
           {| resource.CreateRequest_Plan := clean (bucket_link (types.Known "bob")) |} fresh)
        (serving bare_quota [])
  = [admin.CallLinkBucket (admin.mkBucketLinkInput "photos" "alice")] /\
  result (BucketLinkResource.Create
            {| resource.CreateRequest_Plan := clean (bucket_link (types.Known "bob")) |} fresh)
         (serving bare_quota [])
  = resource.mkResponse (Some (bucket_link (types.Known "bob"))) [].
Proof.
  exact (BucketLink_Create_links_to_uid
           (serving bare_quota [])
           {| resource.CreateRequest_Plan := clean (bucket_link (types.Known "bob")) |}
           fresh eq_refl).
Defined.

(** X10. Update of a bucket link never calls the gateway; unless the
    response holds an error on entry, it stores the plan. *)
Theorem BucketLink_Update_is_local :
  forall (remote : admin.Remote)
         (req : resource.UpdateRequest BucketLinkResource.BucketLinkResourceModel)
         (resp : resource.UpdateResponse BucketLinkResource.BucketLinkResourceModel),
    let resp0 := entered resp (resource.UpdateRequest_Plan req) in
    calls (BucketLinkResource.Update req resp) remote = [] /\
    (diag.HasError (resource.Diagnostics resp0) = false ->
     result (BucketLinkResource.Update req resp) remote
     = resource.mkResponse (Some (tfsdk.Get_data (resource.UpdateRequest_Plan req)))
                           (resource.Diagnostics resp0)).
Proof.
  intros remote req resp resp0. subst resp0. handler_run. split.
  - split_branches; reflexivity.
  - intros Hok. now rewrite Hok.
Qed.

(** X10 at work: changing [unlink_to_uid] is stored without a request, even
    against a gateway that refuses everything. *)
Lemma BucketLink_Update_is_local_witness :
  calls (BucketLinkResource.Update
           {| resource.UpdateRequest_Plan := clean (bucket_link (types.Known "bob")) |}
           (holding (bucket_link types.Null)))
        (failing ErrNoSuchUser)
  = [] /\
  result (BucketLinkResource.Update
            {| resource.UpdateRequest_Plan := clean (bucket_link (types.Known "bob")) |}
            (holding (bucket_link types.Null)))
         (failing ErrNoSuchUser)
  = resource.mkResponse (Some (bucket_link (types.Known "bob"))) [].
Proof.
  destruct (BucketLink_Update_is_local
              (failing ErrNoSuchUser)
              {| resource.UpdateRequest_Plan := clean (bucket_link (types.Known "bob")) |}
              (holding (bucket_link types.Null))) as [Hcalls Hout].
  split; [exact Hcalls | exact (Hout eq_refl)].
Defined.

(** *** Read, twice *)

Ltac stable :=
  intros remote data m ds ds' resp resp' req req' Hst Hok Hm Hst' Hok';
  subst req req'; handler_run; cbn [tfsdk.Get_data tfsdk.Get_diags] in *;
  rewrite Hok in Hm; rewrite Hok';
  repeat match type of Hm with
         | context [match ?x with _ => _ end] => destruct x eqn:?
         end;
  cbn [fst resource.State resource.State_RemoveResource resource.Diagnostics_AddError
       resource.Diagnostics_Append] in Hm;
  try discriminate Hm;
  try rewrite Hst in Hm;
  injection Hm as <-;
  cbn [UserQuotaResource.UID UserQuotaResource.set_Enabled UserQuotaResource.set_CheckOnRaw
       UserQuotaResource.set_MaxSize UserQuotaResource.set_MaxSizeKB
       UserQuotaResource.set_MaxObjects
       QuotaResource.UID QuotaResource.Type_ QuotaResource.set_Enabled
       QuotaResource.set_CheckOnRaw QuotaResource.set_MaxSize QuotaResource.set_MaxSizeKB
       QuotaResource.set_MaxObjects
       BucketQuotaResource.Bucket BucketQuotaResource.set_Enabled
       BucketQuotaResource.set_CheckOnRaw BucketQuotaResource.set_MaxSize
       BucketQuotaResource.set_MaxSizeKB BucketQuotaResource.set_MaxObjects];
  repeat match goal with
         | H : ?x = _ |- context [?x] => rewrite H
         end;
  cbn [fst resource.State resource.State_RemoveResource resource.Diagnostics_AddError
       resource.Diagnostics_Append];
  first [assumption | reflexivity].

Lemma UserQuota_read_stable : read_stable UserQuotaResource.Read.
Proof. stable. Qed.

Lemma Quota_read_stable : read_stable QuotaResource.Read.
Proof. stable. Qed.

Lemma BucketQuota_read_stable : read_stable BucketQuotaResource.Read.
Proof. stable. Qed.

Lemma BucketLink_read_stable : read_stable BucketLinkResource.Read.
Proof. stable. Qed.

(** X11. Read is stable, for each of the four resources: the state a Read
    leaves, read again against the same gateway, is left as it is. *)
Theorem Read_is_stable :
  read_stable UserQuotaResource.Read /\
  read_stable QuotaResource.Read /\
  read_stable BucketQuotaResource.Read /\
  read_stable BucketLinkResource.Read.
Proof.
  repeat apply conj.
  - exact UserQuota_read_stable.
  - exact Quota_read_stable.
  - exact BucketQuota_read_stable.
  - exact BucketLink_read_stable.
Qed.

(** X11 at work: a bucket quota read back from the gateway, and read
    again. *)
Lemma Read_is_stable_witness :
  resource.State
    (result (BucketQuotaResource.Read
               {| resource.ReadRequest_State :=
                    clean (BucketQuotaResource.mkModel
                             (types.Known "photos") (types.Known "alice") (types.Known true)
                             (types.Known false) (types.Known 4096) (types.Known 4)
                             (types.Known 10)) |}
               (holding (BucketQuotaResource.mkModel
                           (types.Known "photos") (types.Known "alice") (types.Known true)
                           (types.Known false) (types.Known 4096) (types.Known 4)
                           (types.Known 10))))
            (serving full_quota []))
  = Some (BucketQuotaResource.mkModel
            (types.Known "photos") (types.Known "alice") (types.Known true)
            (types.Known false) (types.Known 4096) (types.Known 4) (types.Known 10)).
Proof.
  exact (proj1 (proj2 (proj2 Read_is_stable))
           (serving full_quota []) (bucket_quota (types.Known 8)) _ [] []
           (holding (bucket_quota (types.Known 8))) (holding _)
           eq_refl eq_refl eq_refl eq_refl eq_refl).
Defined.

Ltac read_raw :=
  intros remote req resp c q Hok Hc Herr Hq Hacc; unfold same_user in *;
  handler_run; rewrite Hok in *; split_type;
  match type of Hc with
  | context [let (_, _) := ?a in _] =>
      let ans := fresh "ans" in
      let A := fresh "A" in
      destruct a as [ans [e |]] eqn:A;
      [ destruct (errors.Is e _); cbn [snd fst] in Hc; injection Hc as <-;
        cbn [error_of] in Herr; rewrite A in Herr; discriminate Herr
      | try match type of Hc with
            | context [if ?b then _ else _] => destruct b eqn:?
            end;
        cbn [snd fst] in Hc; injection Hc as <-;
        cbn [quota_answer] in Hq; rewrite A in Hq; cbn [fst] in Hq; injection Hq as <-;
        try (rewrite Hacc in *; discriminate) ]
  end;
  cbn [fst resource.State resource.Diagnostics_Append];
  eexists; (split; [reflexivity |]);
  split_branches; reflexivity.

(** X12. A successful Read of a quota resource stores [check_on_raw] from the
    answer, whatever the prior value: unlike the optional fields, it is
    always overwritten. *)
Theorem Read_stores_check_on_raw :
  read_check_on_raw UserQuotaResource.Read UserQuotaResource.CheckOnRaw same_user /\
  read_check_on_raw QuotaResource.Read QuotaResource.CheckOnRaw (fun _ _ => true) /\
  read_check_on_raw BucketQuotaResource.Read BucketQuotaResource.CheckOnRaw
    (fun _ _ => true).
Proof. repeat apply conj; read_raw. Qed.

(** X12 at work: the gateway checks on raw size, the prior state said it did
    not. *)
Lemma Read_stores_check_on_raw_witness :
  exists m : UserQuotaResource.UserQuotaResourceModel,
    resource.State
      (result (UserQuotaResource.Read
                 {| resource.ReadRequest_State := clean (user_quota (types.Known 4)) |}
                 (holding (user_quota (types.Known 4))))
              (serving (admin.mkQuotaSpec "alice" "" "user" None true None None None) []))
    = Some m /\
    UserQuotaResource.CheckOnRaw m = types.Known true.
Proof.
  exact (proj1 Read_stores_check_on_raw
           (serving (admin.mkQuotaSpec "alice" "" "user" None true None None None) [])
           {| resource.ReadRequest_State := clean (user_quota (types.Known 4)) |}
           (holding (user_quota (types.Known 4)))
           _ _ eq_refl eq_refl eq_refl eq_refl eq_refl).
Defined.

(** *** The scan of the bucket list *)

(** X13. [findString], the scan Read of the bucket link runs over the
    user's buckets, answers true exactly when the name is in the list, and
    over two lists put together it is the disjunction of the two scans. *)
Theorem findString_is_membership :
  forall (slice : list string) (str : string),
    (BucketLinkResource.findString slice str = true <-> In str slice) /\
    (forall more : list string,
       BucketLinkResource.findString (slice ++ more) str
       = BucketLinkResource.findString slice str
         || BucketLinkResource.findString more str).
Proof.
  intros slice str. split.
  - induction slice as [| item rest IH]; simpl.
    + split; [discriminate | contradiction].
    + destruct (String.eqb item str) eqn:E.
      * apply String.eqb_eq in E. split; auto.
      * apply String.eqb_neq in E. rewrite IH. split; [auto |].
        intros [H | H]; [contradiction | assumption].
  - intros more. induction slice as [| item rest IH]; simpl.
    + reflexivity.
    + destruct (String.eqb item str); [reflexivity | exact IH].
Qed.

(** *** The provider's Configure *)

Section ProviderConfigure.
Import RgwProvider.
Variable API : Type.
Variable admin_New : string -> string -> string -> API * option error.

(** The setting Configure uses for an attribute: the attribute when it is
    not null, the environment variable otherwise. *)
Lemma Configure_run (env : os.Environ) (req : ConfigureRequest)
    (resp : ConfigureResponse API) :
  let data := tfsdk.Get_data (Config req) in
  let resp0 := Diagnostics_Append API resp (tfsdk.Get_diags (Config req)) in
  let setting (attr : types.String) (var : string) :=
    if types.IsNull attr then os.Getenv env var else types.ValueString attr in
  let ep := setting (Endpoint data) "TF_PROVIDER_RGW_ENDPOINT" in
  let ak := setting (AccessKey data) "TF_PROVIDER_RGW_ACCESS_KEY" in
  let sk := setting (SecretKey data) "TF_PROVIDER_RGW_SECRET_KEY" in
  diag.HasError (Diagnostics resp0) = false ->
  Configure admin_New env req resp
  = match snd (admin_New ep ak sk) with
    | Some e =>
        Diagnostics_AddError API resp0 "could not create rgw admin client" (errors.Error e)
    | None =>
        let client := mkRgwClient (fst (admin_New ep ak sk)) (s3.mkClient ak sk ep true) in
        mkConfigureResponse (Diagnostics resp0) (Some client) (Some client)
    end.
Proof.
  intros data resp0 setting ep ak sk Hok. subst data resp0 setting ep ak sk.
  unfold Configure. rewrite Hok.
  destruct (types.IsNull (Endpoint _)), (types.IsNull (AccessKey _)),
           (types.IsNull (SecretKey _));
    cbn [Endpoint AccessKey SecretKey set_Endpoint set_AccessKey set_SecretKey
         types.ValueString types.ValueOr types.StringValue];
    destruct (admin_New _ _ _) as [a [e |]]; reflexivity.
Qed.

End ProviderConfigure.

(** X14. When the configuration sets [endpoint], [access_key] and
    [secret_key] (none is null), the provider's Configure does not depend on
    the environment. *)
Theorem Configure_ignores_environment_when_configured :
  forall (API : Type) (admin_New : string -> string -> string -> API * option error)
         (env env' : os.Environ) (req : RgwProvider.ConfigureRequest)
         (resp : RgwProvider.ConfigureResponse API),
    let data := tfsdk.Get_data (RgwProvider.Config req) in
    types.IsNull (RgwProvider.Endpoint data) = false ->
    types.IsNull (RgwProvider.AccessKey data) = false ->
    types.IsNull (RgwProvider.SecretKey data) = false ->
    RgwProvider.Configure admin_New env req resp
    = RgwProvider.Configure admin_New env' req resp.
Proof.
  intros API admin_New env env' req resp data He Ha Hs. subst data.
  unfold RgwProvider.Configure. rewrite He, Ha, Hs. reflexivity.
Qed.

(** X14 at work: with every attribute set, the variables of the environment
    change nothing. *)
Lemma Configure_ignores_environment_when_configured_witness :
  RgwProvider.Configure ProviderExamples.New ProviderExamples.environment
    ProviderExamples.full_config ProviderExamples.blank
  = RgwProvider.Configure ProviderExamples.New []
      ProviderExamples.full_config ProviderExamples.blank.
Proof.
  apply Configure_ignores_environment_when_configured; reflexivity.
Defined.

(** X15. In the provider's Configure a null attribute acts as if it were set
    to the value of its environment variable (the empty string when the
    variable is not set), and an attribute that is not null is used as it
    is. *)
Theorem Configure_falls_back_to_environment :
  forall (API : Type) (admin_New : string -> string -> string -> API * option error)
         (env : os.Environ) (ds : diag.Diagnostics) (data : RgwProvider.RgwProviderModel)
         (resp : RgwProvider.ConfigureResponse API),
    let filled (attr : types.String) (var : string) : types.String :=
      if types.IsNull attr then types.Known (os.Getenv env var) else attr in
    RgwProvider.Configure admin_New env
      {| RgwProvider.Config := tfsdk.mkData ds data |} resp
    = RgwProvider.Configure admin_New []
        {| RgwProvider.Config :=
             tfsdk.mkData ds
               (RgwProvider.mkModel
                  (filled (RgwProvider.Endpoint data) "TF_PROVIDER_RGW_ENDPOINT")
                  (filled (RgwProvider.AccessKey data) "TF_PROVIDER_RGW_ACCESS_KEY")
                  (filled (RgwProvider.SecretKey data) "TF_PROVIDER_RGW_SECRET_KEY")) |}
        resp.
Proof.
  intros API admin_New env ds data resp filled. subst filled.
  unfold RgwProvider.Configure.
  cbn [RgwProvider.Config tfsdk.Get_data tfsdk.Get_diags].
  destruct (diag.HasError _); [reflexivity |].
  destruct data as [[| | ep] [| | ak] [| | sk]]; reflexivity.
Qed.

(** X16. The provider's Configure either ends with an error diagnostic and
    publishes nothing new, or publishes one client, the same as data source
    and as resource data, whose S3 part holds the endpoint and keys the admin
    client was made from. *)
Theorem Configure_builds_both_clients_alike :
  forall (API : Type) (admin_New : string -> string -> string -> API * option error)
         (env : os.Environ) (req : RgwProvider.ConfigureRequest)
         (resp : RgwProvider.ConfigureResponse API),
    let out := RgwProvider.Configure admin_New env req resp in
    (diag.HasError (RgwProvider.Diagnostics out) = true /\
     RgwProvider.DataSourceData out = RgwProvider.DataSourceData resp /\
     RgwProvider.ResourceData out = RgwProvider.ResourceData resp)
    \/
    (exists (ep ak sk : string) (a : API),
       admin_New ep ak sk = (a, None) /\
       RgwProvider.ResourceData out
       = Some (RgwProvider.mkRgwClient a (s3.mkClient ak sk ep true)) /\
       RgwProvider.DataSourceData out = RgwProvider.ResourceData out /\
       RgwProvider.Diagnostics out
       = diag.Append (RgwProvider.Diagnostics resp)
                     (tfsdk.Get_diags (RgwProvider.Config req))).
Proof.
  intros API admin_New env req resp out. subst out.
  destruct (diag.HasError
              (RgwProvider.Diagnostics
                 (RgwProvider.Diagnostics_Append API resp
                    (tfsdk.Get_diags (RgwProvider.Config req))))) eqn:Hok.
  - left. unfold RgwProvider.Configure. rewrite Hok. auto.
  - rewrite (Configure_run API admin_New env req resp Hok). cbv zeta.
    destruct (admin_New _ _ _) as [a [e |]] eqn:A; cbn [fst snd].
    + left. cbn. split; [apply HasError_AddError | auto].
    + right. do 4 eexists. split; [exact A |]. repeat split.
Qed.

(** *** A resource's Configure, after the provider's *)

(** X17. A resource's Configure, given what the provider's Configure left as
    resource data in a response that held none: it never reports anything;
    when the provider ended with an error the resource is left as it was,
    otherwise it holds the client the provider published. *)
Theorem resource_Configure_after_provider :
  forall (API : Type) (admin_New : string -> string -> string -> API * option error)
         (env : os.Environ) (req : RgwProvider.ConfigureRequest)
         (presp : RgwProvider.ConfigureResponse API)
         (r : ResourceConfigure.Resource (RgwProvider.RgwClient API))
         (ds : diag.Diagnostics),
    let out := RgwProvider.Configure admin_New env req presp in
    let configured :=
      ResourceConfigure.Configure r
        (ResourceConfigure.of_ResourceData (RgwProvider.ResourceData out)) ds in
    RgwProvider.ResourceData presp = None ->
    snd configured = ds /\
    (diag.HasError (RgwProvider.Diagnostics out) = true -> fst configured = r) /\
    (diag.HasError (RgwProvider.Diagnostics out) = false ->
     exists c : RgwProvider.RgwClient API,
       RgwProvider.ResourceData out = Some c /\
       ResourceConfigure.client (fst configured) = Some c).
Proof.
  intros API admin_New env req presp r ds out configured Hnone.
  subst configured.
  destruct (diag.HasError
              (RgwProvider.Diagnostics
                 (RgwProvider.Diagnostics_Append API presp
                    (tfsdk.Get_diags (RgwProvider.Config req))))) eqn:Hok.
  - assert (out = RgwProvider.Diagnostics_Append API presp
                    (tfsdk.Get_diags (RgwProvider.Config req))) as ->
      by (unfold out, RgwProvider.Configure; now rewrite Hok).
    cbn [RgwProvider.ResourceData RgwProvider.Diagnostics_Append].
    rewrite Hnone. cbn [ResourceConfigure.of_ResourceData ResourceConfigure.Configure fst snd].
    split; [reflexivity |]. split; [reflexivity |].
    intros Hno. cbn [RgwProvider.Diagnostics RgwProvider.Diagnostics_Append] in Hok, Hno.
    congruence.
  - pose proof (Configure_run API admin_New env req presp Hok) as Hout.
    cbv zeta in Hout. fold out in Hout. rewrite Hout.
    destruct (admin_New _ _ _) as [a [e |]];
      cbn [fst snd RgwProvider.ResourceData RgwProvider.Diagnostics
           RgwProvider.Diagnostics_AddError RgwProvider.Diagnostics_Append
           ResourceConfigure.of_ResourceData ResourceConfigure.Configure
           ResourceConfigure.client].
    + rewrite Hnone.
      cbn [ResourceConfigure.of_ResourceData ResourceConfigure.Configure fst snd].
      split; [reflexivity |]. split; [reflexivity |].
      intros Hno. rewrite HasError_AddError in Hno. discriminate Hno.
    + split; [reflexivity |]. split.
      * intros Herr. cbn [RgwProvider.Diagnostics RgwProvider.Diagnostics_Append] in Hok.
        congruence.
      * intros _. eexists. split; reflexivity.
Qed.

(** X17 at work: the keys come from the environment, its first binding of
    each variable, and reach the resource. *)
Lemma resource_Configure_after_provider_witness :
  let out :=
    RgwProvider.Configure ProviderExamples.New ProviderExamples.environment
      ProviderExamples.config ProviderExamples.blank in
  let configured :=
    ResourceConfigure.Configure (ResourceConfigure.mkResource None)
      (ResourceConfigure.of_ResourceData (RgwProvider.ResourceData out)) [] in
  snd configured = [] /\
  exists c : RgwProvider.RgwClient ProviderExamples.Handle,
    RgwProvider.ResourceData out = Some c /\
    ResourceConfigure.client (fst configured) = Some c /\
    RgwProvider.S3 c = s3.mkClient "AKIA" "s3cr3t" "http://rgw:8080" true.
Proof.
  intros out configured.
  destruct (resource_Configure_after_provider
              ProviderExamples.Handle ProviderExamples.New ProviderExamples.environment
              ProviderExamples.config ProviderExamples.blank
              (ResourceConfigure.mkResource None) [] eq_refl) as [Hds [_ Hclient]].
  split; [exact Hds |].
  destruct (Hclient eq_refl) as [c [Hc Hr]].
  exists c. split; [exact Hc |]. split; [exact Hr |].
  injection Hc as <-. reflexivity.
Defined.

(** *** The type names of the resources *)

Lemma append_cancel (p a b : string) : (p ++ a)%string = (p ++ b)%string -> a = b.
Proof.
  induction p as [| ch p IH]; simpl; intros H.
  - exact H.
  - injection H as H. auto.
Qed.

(** X18. The type names the resources register under, for a provider type
    name: those of the bucket quota, the bucket link and the generic quota
    are pairwise distinct, and the user quota resource takes the name of the
    generic quota resource. *)
Theorem resource_type_names :
  forall ProviderTypeName : string,
    ResourceMetadata.BucketQuotaResource_Metadata ProviderTypeName
    <> ResourceMetadata.BucketLinkResource_Metadata ProviderTypeName /\
    ResourceMetadata.QuotaResource_Metadata ProviderTypeName
    <> ResourceMetadata.BucketQuotaResource_Metadata ProviderTypeName /\
    ResourceMetadata.QuotaResource_Metadata ProviderTypeName
    <> ResourceMetadata.BucketLinkResource_Metadata ProviderTypeName /\
    ResourceMetadata.UserQuotaResource_Metadata ProviderTypeName
    = ResourceMetadata.QuotaResource_Metadata ProviderTypeName.
Proof.
  intros p. unfold ResourceMetadata.BucketQuotaResource_Metadata,
    ResourceMetadata.BucketLinkResource_Metadata, ResourceMetadata.QuotaResource_Metadata,
    ResourceMetadata.UserQuotaResource_Metadata.
  repeat apply conj; try reflexivity;
    intros H; apply append_cancel in H; discriminate H.
Qed.
